(** * Documentation coverage auditor: a shallow embedding

    This development models [scripts/audits/audit-documentation.py]: the
    extraction of component names from CSS text, of section identifiers
    from HTML text, the heuristic pairing of both, and the command-line
    driver with its exit codes.  Two neighbours of that script are modelled
    as well: the helpers of [scripts/audits/lint-css.py] that judge one
    finding, and the checks of [validate-css.py].

    Text is modelled as [string] (a sequence of 8-bit characters); the
    character classes [\w] and [\s] and the case folding of [re.IGNORECASE]
    are the ASCII ones, so the model describes the script on ASCII text. *)

From Stdlib Require Import Ascii String NArith ZArith.
From stdpp Require Import base list strings gmap sorting pretty.

(** ** Characters *)

Module Chars.

Definition code (c : ascii) : N := N_of_ascii c.

Definition between (lo hi : N) (c : ascii) : bool :=
  ((lo <=? code c) && (code c <=? hi))%N.

Definition is_upper : ascii -> bool := between 65 90.
Definition is_lower : ascii -> bool := between 97 122.
Definition is_digit : ascii -> bool := between 48 57.

(** [str.lower] on one ASCII character. *)
Definition lower (c : ascii) : ascii :=
  if is_upper c then ascii_of_N (code c + 32) else c.

(** [\w]: letters, digits and the underscore. *)
Definition is_word (c : ascii) : bool :=
  is_upper c || is_lower c || is_digit c || Ascii.eqb c "_".

(** [[\w-]] *)
Definition is_word_or_hyphen (c : ascii) : bool :=
  is_word c || Ascii.eqb c "-".

(** [\s] on a [str] pattern: tab, newline, vertical tab, form feed,
    carriage return, the four separators 0x1c..0x1f, and the space. *)
Definition is_space (c : ascii) : bool :=
  between 9 13 c || between 28 31 c || Ascii.eqb c " ".

(** [[^>]] *)
Definition not_gt (c : ascii) : bool := negb (Ascii.eqb c ">").

(** The double quote (code 34) or the apostrophe: the class written
    between the brackets of the id pattern. *)
Definition is_quote (c : ascii) : bool :=
  Ascii.eqb c "034" || Ascii.eqb c "'".

(** The complement of [is_quote]. *)
Definition not_quote (c : ascii) : bool := negb (is_quote c).

End Chars.

(** ** The regular-expression engine

    Python's [re] is a backtracking matcher: alternatives are tried left to
    right, a greedy repetition first takes as many characters as it can and
    gives them back one at a time when the rest of the pattern fails.  The
    matcher below is written in continuation-passing style, the
    continuation being "the rest of the pattern". *)

Module Re.

Inductive regex : Type :=
| Eps                          (* the empty pattern *)
| Chr (c : ascii)              (* a literal character *)
| Cls (p : ascii -> bool)      (* a character class *)
| Seq (r1 r2 : regex)          (* r1 r2 *)
| Alt (r1 r2 : regex)          (* r1|r2 *)
| Star (p : ascii -> bool)     (* X*, greedy, X a class *)
| Group (r : regex).           (* the capturing group read by group(1) *)

(** X+ is X X* *)
Definition Plus (p : ascii -> bool) : regex := Seq (Cls p) (Star p).

(** A literal string. *)
Fixpoint lit (s : string) : regex :=
  match s with
  | EmptyString => Eps
  | String c EmptyString => Chr c
  | String c s' => Seq (Chr c) (lit s')
  end.

(** r | r1 | ... | rn *)
Fixpoint alts (r : regex) (rs : list regex) : regex :=
  match rs with
  | [] => r
  | r' :: rs' => Alt r (alts r' rs')
  end.

(** Every way through [r] goes through the capturing group. *)
Fixpoint captures (r : regex) : bool :=
  match r with
  | Group _ => true
  | Seq r1 r2 => captures r1 || captures r2
  | Alt r1 r2 => captures r1 && captures r2
  | _ => false
  end.

(** Literal comparison; under [re.IGNORECASE] both sides are folded. *)
Definition chr_eq (ic : bool) (c x : ascii) : bool :=
  if ic then Ascii.eqb (Chars.lower c) (Chars.lower x) else Ascii.eqb c x.

(** The text consumed between [s] and its suffix [s']. *)
Definition consumed (s s' : string) : string :=
  String.substring 0 (String.length s - String.length s') s.

Section Matcher.
Context {R : Type}.
Variable ic : bool.

(** Greedy X*: take one more character if possible, and only when the
    continuation fails on that, continue from here. *)
Fixpoint star (p : ascii -> bool) (s : string)
         (k : string -> option R) : option R :=
  match s with
  | String x s' =>
      if p x then
        match star p s' k with
        | Some r => Some r
        | None => k s
        end
      else k s
  | EmptyString => k s
  end.

Fixpoint rmatch (r : regex) (s : string) (g : option string)
         (k : string -> option string -> option R) : option R :=
  match r with
  | Eps => k s g
  | Chr c =>
      match s with
      | String x s' => if chr_eq ic c x then k s' g else None
      | EmptyString => None
      end
  | Cls p =>
      match s with
      | String x s' => if p x then k s' g else None
      | EmptyString => None
      end
  | Seq r1 r2 => rmatch r1 s g (fun s' g' => rmatch r2 s' g' k)
  | Alt r1 r2 =>
      match rmatch r1 s g k with
      | Some res => Some res
      | None => rmatch r2 s g k
      end
  | Star p => star p s (fun s' => k s' g)
  | Group r1 =>
      rmatch r1 s g (fun s' _ => k s' (Some (consumed s s')))
  end.
End Matcher.

(** A match object: what [group(1)] holds, and the length of the match. *)
Record match_obj : Type := MatchObj { group1 : option string; span : nat }.

(** [pattern.match] at the head of [s]. *)
Definition match_at (ic : bool) (r : regex) (s : string) : option match_obj :=
  rmatch ic r s None
    (fun s' g => Some (MatchObj g (String.length s - String.length s'))).

(** [re.finditer]: scan left to right; after a match the search resumes at
    its end.  [skip] counts the characters of the last match still to be
    passed over.  (The patterns of this program never match the empty
    string.) *)
Fixpoint finditer_from (ic : bool) (r : regex) (skip : nat) (s : string)
  : list match_obj :=
  match s with
  | EmptyString => []
  | String _ s' =>
      match skip with
      | S n => finditer_from ic r n s'
      | O =>
          match match_at ic r s with
          | Some m => m :: finditer_from ic r (Nat.pred (span m)) s'
          | None => finditer_from ic r 0 s'
          end
      end
  end.

Definition finditer (ic : bool) (r : regex) (s : string) : list match_obj :=
  finditer_from ic r 0 s.

End Re.

Import Re.

(** ** Exceptions and the values of the Python program *)

Inductive exn : Type :=
| IndexError
| KeyError
| AttributeError
| TypeError
| SystemExit (status : nat).

Inductive result (A : Type) : Type :=
| Raise (e : exn)
| Ok (v : A).
Arguments Raise {A} e.
Arguments Ok {A} v.

Global Instance result_ret : MRet result := fun _ v => Ok v.
Global Instance result_bind : MBind result := fun _ _ f m =>
  match m with
  | Raise e => Raise e
  | Ok v => f v
  end.

(** [for x in xs: state = body(x, state)], an exception leaving the loop. *)
Fixpoint for_each {A S : Type} (xs : list A) (body : A -> S -> result S)
         (st : S) : result S :=
  match xs with
  | [] => Ok st
  | x :: xs' => st' ← body x st; for_each xs' body st'
  end.

Module Py.

(** [l[i]] *)
Definition index {A : Type} (l : list A) (i : nat) : result A :=
  match l !! i with
  | Some x => Ok x
  | None => Raise IndexError
  end.

(** [d[k]] *)
Definition getitem (d : gmap string string) (k : string) : result string :=
  match d !! k with
  | Some v => Ok v
  | None => Raise KeyError
  end.

(** A value that is either a [str] or [None], used where a [str] method
    is called on it. *)
Definition as_str (e : exn) (v : option string) : result string :=
  match v with
  | Some s => Ok s
  | None => Raise e
  end.

(** [s.split(sep)] for a one-character separator. *)
Fixpoint split (sep : ascii) (s : string) : list string :=
  match s with
  | EmptyString => [EmptyString]
  | String c s' =>
      if Ascii.eqb c sep then EmptyString :: split sep s'
      else match split sep s' with
           | [] => [String c EmptyString]
           | w :: ws => String c w :: ws
           end
  end.

(** [s.startswith(p)] *)
Fixpoint startswith (s p : string) {struct p} : bool :=
  match p, s with
  | EmptyString, _ => true
  | String a p', String b s' => Ascii.eqb a b && startswith s' p'
  | String _ _, EmptyString => false
  end.

(** [p in s] on strings: [p] occurs in [s] at some offset. *)
Fixpoint contains (p s : string) : bool :=
  startswith s p ||
  match s with
  | EmptyString => false
  | String _ s' => contains p s'
  end.

(** [x in l] on a list of strings. *)
Definition mem (x : string) (l : list string) : bool := bool_decide (x ∈ l).

(** [any(f(x) for x in l)] *)
Definition any {A : Type} (f : A -> bool) (l : list A) : bool := existsb f l.

(** [sorted(l)] on strings: ascending by code points. *)
Definition sorted (l : list string) : list string := merge_sort String.le l.

(** [list(set(l))]: the distinct elements, in the set's own order. *)
Definition list_of_set (l : list string) : list string :=
  elements (list_to_set l : gset string).

End Py.

(** ** Component extraction *)

Definition component_prefixes : list string :=
  ["btn"; "card"; "modal"; "token"; "badge"; "form"; "collection";
   "empty-state"; "progress"; "profile"; "guideline"; "table"; "nav";
   "hero"; "footer"].

(** The pattern of line 29: a dot, then group 1, then [\s*] and an opening
    brace.  Group 1 is one of the fifteen prefixes followed by [[\w-]*].
    The alternation of prefixes is itself group 2, which the program never
    reads; only group 1 is recorded. *)
Definition component_pattern : regex :=
  Seq (Chr ".")
   (Seq (Group (Seq (alts (lit "btn") (lit <$> tail component_prefixes))
                    (Star Chars.is_word_or_hyphen)))
   (Seq (Star Chars.is_space) (Chr "{"))).

Definition important_variants : list string :=
  ["btn-primary"; "btn-secondary"; "btn-tertiary"; "btn-icon";
   "btn-sm"; "btn-md"; "btn-lg"; "btn-inline";
   "card-showcase";
   "badge-showcase"; "badge-group";
   "table-responsive";
   "modal-dialog"; "modal-content";
   "form-group"; "form-control";
   "progress-bar"; "progress-container"].

(** First loop: collect the distinct matched names in order of appearance. *)
Definition collect_step (m : match_obj) (components : list (option string))
  : result (list (option string)) :=
  let component_name := group1 m in
  if bool_decide (component_name ∈ components) then Ok components
  else Ok (components ++ [component_name]).

(** Second loop: keep base components and the important variants. *)
Definition filter_step (component : option string) (filtered : list string)
  : result (list string) :=
  c ← Py.as_str AttributeError component;
  let parts := Py.split "-" c in
  base ← Py.index parts 0;
  if length parts =? 1 then Ok (filtered ++ [c])
  else if Py.mem c important_variants then Ok (filtered ++ [c])
  else if Py.mem base ["empty-state"; "profile-card"] && (length parts =? 2)
       then Ok (filtered ++ [c])
  else Ok filtered.

Definition extract_semantic_components (css_content : string)
  : result (list string) :=
  let matches := finditer false component_pattern css_content in
  components ← for_each matches collect_step [];
  filtered_components ← for_each components filter_step [];
  Ok (Py.sorted (Py.list_of_set filtered_components)).

(** ** Section extraction *)

(** The pattern [<(?:div|section)[^>]+id=Q([^Q]+)Q[^>]*>], where Q stands
    for the class of the two quote characters; compiled with
    [re.IGNORECASE]. *)
Definition section_pattern : regex :=
  Seq (Chr "<")
   (Seq (Alt (lit "div") (lit "section"))
   (Seq (Plus Chars.not_gt)
   (Seq (lit "id=")
   (Seq (Cls Chars.is_quote)
   (Seq (Group (Plus Chars.not_quote))
   (Seq (Cls Chars.is_quote)
   (Seq (Star Chars.not_gt) (Chr ">")))))))).

Definition skipped_markers : list string :=
  ["sidebar"; "overview"; "paint0"; "clip0"; "hero_logo"].

Definition section_step (m : match_obj) (sections : list string)
  : result (list string) :=
  section_id ← Py.as_str TypeError (group1 m);
  if negb (Py.any (fun skip => Py.contains skip section_id) skipped_markers)
  then Ok (sections ++ [section_id])
  else Ok sections.

Definition extract_documentation_sections (html_content : string)
  : result (list string) :=
  let matches := finditer true section_pattern html_content in
  sections ← for_each matches section_step [];
  Ok (Py.sorted sections).

(** ** Pairing components with sections *)

Definition pluralization_map : gmap string string :=
  list_to_map
    [("btn", "buttons"); ("card", "cards"); ("modal", "modals");
     ("form", "forms"); ("table", "tables"); ("badge", "badges");
     ("nav", "navigation"); ("footer", "footers"); ("hero", "heroes")].

(** The two dictionaries built by [create_semantic_mapping]. *)
Record mapping : Type := Mapping {
  component_to_section : gmap string string;
  section_to_component : gmap string string
}.

(** The candidate section names of a component, in the order tried. *)
Definition potential_sections_of (component : string) : result (list string) :=
  base_component ← Py.index (Py.split "-" component) 0;
  plural ← (if bool_decide (is_Some (pluralization_map !! base_component))
            then p ← Py.getitem pluralization_map base_component; Ok [p]
            else Ok []);
  Ok (plural ++ [base_component] ++ [component]).

(** The inner loop: record the first candidate found among the sections,
    then [break]. *)
Fixpoint first_matching (component : string) (sections potential : list string)
         (m : mapping) : mapping :=
  match potential with
  | [] => m
  | p :: rest =>
      if Py.mem p sections then
        Mapping (<[component := p]> (component_to_section m))
                (<[p := component]> (section_to_component m))
      else first_matching component sections rest m
  end.

Definition mapping_step (sections : list string) (component : string)
           (m : mapping) : result mapping :=
  potential_sections ← potential_sections_of component;
  Ok (first_matching component sections potential_sections m).

Definition create_semantic_mapping (components sections : list string)
  : result mapping :=
  for_each components (mapping_step sections) (Mapping ∅ ∅).

(** ** The audit proper *)

Definition stale_prefixes : list string :=
  ["btn"; "card"; "modal"; "token"; "badge"; "form"; "table"; "nav"; "footer"].

Definition component_like (section : string) : bool :=
  Py.any (fun prefix => Py.startswith section prefix || Py.contains prefix section)
         stale_prefixes.

Record audit_result : Type := AuditResult {
  undocumented : list string;
  stale_sections : list string;
  component_count : nat;
  section_count : nat
}.

(** Lines 177 to 206 of the script: everything [audit_documentation] does
    once both files have been read. *)
Definition audit_contents (css_content html_content : string)
  : result audit_result :=
  components ← extract_semantic_components css_content;
  sections ← extract_documentation_sections html_content;
  m ← create_semantic_mapping components sections;
  let undocumented :=
    filter (fun component => component_to_section m !! component = None)
           components in
  let documented_sections : gset string := map_img (component_to_section m) in
  let component_like_sections :=
    filter (fun section => component_like section = true) sections in
  let stale_sections :=
    filter (fun section => section ∉ documented_sections)
           component_like_sections in
  Ok (AuditResult undocumented stale_sections (length components) (length sections)).

(** ** The command-line driver

    The driver probes the file system, prints, and may leave through
    [sys.exit].  A run is modelled by the trace of what it did and by its
    outcome. *)

Inductive file : Type :=
| Missing                          (* no such path *)
| Unreadable (reason : string)     (* the path exists, [open]/[read] raises *)
| Readable (content : string).

Inductive event : Type :=
| EvExists (path : string)         (* [os.path.exists(path)] *)
| EvOpen (path : string)           (* [open(path)] and [read()] *)
| EvPrint (line : string).         (* [print(line)] *)

Record io (A : Type) : Type := IO { trace : list event; outcome : result A }.
Arguments IO {A} trace outcome.
Arguments trace {A} _.
Arguments outcome {A} _.

Global Instance io_ret : MRet io := fun _ v => IO [] (Ok v).
Global Instance io_bind : MBind io := fun _ _ f m =>
  match outcome m with
  | Raise e => IO (trace m) (Raise e)
  | Ok v => match f v with IO t o => IO (trace m ++ t) o end
  end.

Definition lift {A : Type} (r : result A) : io A := IO [] r.
Definition print (line : string) : io unit := IO [EvPrint line] (Ok tt).
Definition sys_exit {A : Type} (status : nat) : io A := IO [] (Raise (SystemExit status)).

(** [for x in xs: body(x)] *)
Fixpoint for_io {A : Type} (xs : list A) (body : A -> io unit) : io unit :=
  match xs with
  | [] => mret tt
  | x :: xs' => body x ;; for_io xs' body
  end.

(** The status the process ends with: 0 on a normal return, the argument
    of [sys.exit], and 1 for an exception nobody caught. *)
Definition exit_status {A : Type} (run : io A) : nat :=
  match outcome run with
  | Ok _ => 0
  | Raise (SystemExit status) => status
  | Raise _ => 1
  end.

Definition printed {A : Type} (run : io A) : list string :=
  omap (fun e => match e with EvPrint line => Some line | _ => None end)
       (trace run).

Definition dq : string := String "034"%char "".

Section Driver.

Variable fs : string -> file.

Definition path_exists (path : string) : io bool :=
  IO [EvExists path]
     (Ok (match fs path with Missing => false | _ => true end)).

(** [with open(path) as file: file.read()] inside [try]: either the text
    of the exception or the content. *)
Definition try_read (path : string) : io (string + string) :=
  IO [EvOpen path]
     (Ok (match fs path with
          | Missing =>
              inl ("[Errno 2] No such file or directory: '" +:+ path +:+ "'")
          | Unreadable reason => inl reason
          | Readable content => inr content
          end)).

Definition audit_documentation (css_file_path html_file_path : string)
  : io audit_result :=
  css ← try_read css_file_path;
  css_content ← match css with
                 | inl e => print ("❌ Error reading CSS file: " +:+ e) ;; sys_exit 1
                 | inr content => mret content
                 end;
  html ← try_read html_file_path;
  html_content ← match html with
                  | inl e => print ("❌ Error reading HTML file: " +:+ e) ;; sys_exit 1
                  | inr content => mret content
                  end;
  lift (audit_contents css_content html_content).

Definition report_undocumented (undocumented : list string) : io unit :=
  print ("❌ Undocumented Components (" +:+ pretty (length undocumented) +:+ " found):") ;;
  print "   CSS components that lack corresponding HTML documentation sections:" ;;
  print "" ;;
  for_io undocumented (fun component => print ("   • ." +:+ component)) ;;
  print "" ;;
  print "   💡 Suggestion: Add documentation sections for these components" ;;
  print "      or verify they are correctly categorized as semantic components." ;;
  print "".

Definition report_stale (stale_sections : list string) : io unit :=
  print ("⚠️  Potentially Stale Documentation (" +:+ pretty (length stale_sections) +:+ " found):") ;;
  print "   HTML sections that may no longer have corresponding CSS components:" ;;
  print "" ;;
  for_io stale_sections (fun section => print ("   • id=" +:+ dq +:+ section +:+ dq)) ;;
  print "" ;;
  print "   💡 Suggestion: Verify these sections are still needed" ;;
  print "      or check if corresponding CSS components exist under different names." ;;
  print "".

Definition is_empty (l : list string) : bool :=
  match l with [] => true | _ => false end.

Definition main (argv : list string) : io unit :=
  (if negb (length argv =? 3) then
     print "Usage: python audit-documentation.py <css-file-path> <html-file-path>" ;;
     sys_exit 1
   else mret tt) ;;
  css_file_path ← lift (Py.index argv 1);
  html_file_path ← lift (Py.index argv 2);
  css_found ← path_exists css_file_path;
  (if negb css_found then
     print ("❌ Error: CSS file '" +:+ css_file_path +:+ "' not found.") ;;
     sys_exit 1
   else mret tt) ;;
  html_found ← path_exists html_file_path;
  (if negb html_found then
     print ("❌ Error: HTML file '" +:+ html_file_path +:+ "' not found.") ;;
     sys_exit 1
   else mret tt) ;;
  print "🔍 Auditing documentation completeness..." ;;
  print ("📄 CSS: " +:+ css_file_path) ;;
  print ("📄 HTML: " +:+ html_file_path) ;;
  print "" ;;
  r ← audit_documentation css_file_path html_file_path;
  print "📊 Analysis Summary:" ;;
  print ("   • Found " +:+ pretty (component_count r) +:+ " semantic CSS components") ;;
  print ("   • Found " +:+ pretty (section_count r) +:+ " documentation sections") ;;
  print "" ;;
  if is_empty (undocumented r) && is_empty (stale_sections r) then
    print "✅ Documentation audit passed!" ;;
    print "🎯 All semantic components are properly documented."
  else
    let issues_found := false in
    issues_found ← (if negb (is_empty (undocumented r))
                    then report_undocumented (undocumented r) ;; mret true
                    else mret issues_found);
    issues_found ← (if negb (is_empty (stale_sections r))
                    then report_stale (stale_sections r) ;; mret true
                    else mret issues_found);
    if issues_found : bool then
      print "🔧 Recommendations:" ;;
      print "   1. Review flagged components and ensure proper documentation" ;;
      print "   2. Remove or update stale documentation sections" ;;
      print "   3. Verify component naming conventions are consistent" ;;
      sys_exit 1
    else mret tt.

End Driver.

(** ** Vocabulary of the statements

    The notions the properties are phrased with, defined on their own
    rather than read off the loops above. *)

(** The names the component pattern matches in a style sheet, in order of
    appearance. *)
Definition matched_names (css_content : string) : list string :=
  omap group1 (finditer false component_pattern css_content).

(** The id values the section pattern matches in a document, one per
    matching tag, in order of appearance. *)
Definition matched_ids (html_content : string) : list string :=
  omap group1 (finditer true section_pattern html_content).

(** ['-' in name] *)
Definition hyphenated (name : string) : bool := Py.contains "-" name.

(** The text before the first hyphen. *)
Fixpoint before_hyphen (name : string) : string :=
  match name with
  | EmptyString => EmptyString
  | String c name' =>
      if Ascii.eqb c "-" then EmptyString else String c (before_hyphen name')
  end.

(** An id is blocked when it contains one of the skipped markers. *)
Definition blocked (section_id : string) : bool :=
  Py.any (fun skip => Py.contains skip section_id) skipped_markers.

(** The candidate sections of a component, in priority order: the alias of
    its base when the table has one, the base, the full name. *)
Definition candidates (component : string) : list string :=
  let base := before_hyphen component in
  match pluralization_map !! base with
  | Some plural => [plural; base; component]
  | None => [base; component]
  end.

(** The first candidate that is a section, if any. *)
Definition first_present (sections potential : list string) : option string :=
  List.find (fun p => bool_decide (p ∈ sections)) potential.


(** All characters of [s] satisfy [p]. *)
Fixpoint all_chars (p : ascii -> bool) (s : string) : bool :=
  match s with
  | EmptyString => true
  | String c s' => p c && all_chars p s'
  end.



(** The names kept by the second loop of component extraction when the
    comparison with the secondary list is left out. *)
Definition kept (name : string) : bool :=
  negb (hyphenated name) || Py.mem name important_variants.






(** A continuation that is sound once a group has been recorded. *)
Definition good_when_set {R : Type} (Q : R -> Prop)
           (k : string -> option string -> option R) : Prop :=
  forall s g res, is_Some g -> k s g = Some res -> Q res.

(** ** Sample inputs *)

Definition nl : string := String "010"%char "".

(** [<tag id="value">] *)
Definition open_tag (tag attr value : string) : string :=
  "<" +:+ tag +:+ " " +:+ attr +:+ "=" +:+ dq +:+ value +:+ dq +:+ ">".


Definition css_buttons : string :=
  ".btn {}" +:+ nl +:+ ".btn-primary {}" +:+ nl +:+ ".card-internal-detail {}".
Definition html_buttons : string := open_tag "div" "id" "buttons" +:+ "</div>".

(** Two containers that carry the same id. *)
Definition html_cards_twice : string :=
  open_tag "div" "id" "cards" +:+ open_tag "section" "id" "cards".

(** A file system holding exactly these two files. *)
Definition fs_buttons (path : string) : file :=
  if String.eqb path "components.css" then Readable css_buttons
  else if String.eqb path "index.html" then Readable html_buttons
  else Missing.

(** The text of a file, when it can be read. *)
Definition readable (f : file) : Prop := exists content, f = Readable content.

(** [needle] occurs in [text]. *)
Definition mentions (text needle : string) : Prop :=
  exists before after, text = before +:+ needle +:+ after.

(** ** What a pattern matches

    [run ic r u g g'] reads: the pattern [r] matches exactly the text [u],
    and a group that held [g] before holds [g'] afterwards. *)

Inductive run (ic : bool) : regex -> string -> option string -> option string -> Prop :=
| run_eps g : run ic Eps "" g g
| run_chr c x g : chr_eq ic c x = true -> run ic (Chr c) (String x "") g g
| run_cls (p : ascii -> bool) x g : p x = true -> run ic (Cls p) (String x "") g g
| run_seq r1 r2 u v g g' g'' :
    run ic r1 u g g' -> run ic r2 v g' g'' -> run ic (Seq r1 r2) (u +:+ v) g g''
| run_alt_l r1 r2 u g g' : run ic r1 u g g' -> run ic (Alt r1 r2) u g g'
| run_alt_r r1 r2 u g g' : run ic r2 u g g' -> run ic (Alt r1 r2) u g g'
| run_star (p : ascii -> bool) u g : all_chars p u = true -> run ic (Star p) u g g
| run_group r u g g' : run ic r u g g' -> run ic (Group r) u g (Some u).

(** A style sheet whose first rule head is [.name ws {]. *)
Definition css_rule (before name ws after : string) : string :=
  before +:+ String "." (name +:+ ws +:+ String "{" after).

(** ** The linter for hard-coded values: [scripts/audits/lint-css.py]

    The two helpers that judge one finding: whether a value is legitimate
    where it stands, and which rule a line belongs to. *)

Module Lint.

(** [s.lstrip()] *)
Fixpoint lstrip (s : string) : string :=
  match s with
  | String c s' => if Chars.is_space c then lstrip s' else s
  | EmptyString => EmptyString
  end.

(** [s.rstrip()] *)
Definition rstrip (s : string) : string := String.rev (lstrip (String.rev s)).

(** [s.strip()] *)
Definition strip (s : string) : string := rstrip (lstrip s).

(** [re.search(pattern, s)] as a truth value: a match starting at some
    offset, the end of the text included. *)
Fixpoint search (ic : bool) (r : regex) (s : string) : bool :=
  match match_at ic r s with
  | Some _ => true
  | None =>
      match s with
      | EmptyString => false
      | String _ s' => search ic r s'
      end
  end.

Definition not_comma_rparen (c : ascii) : bool :=
  negb (Ascii.eqb c "," || Ascii.eqb c ")").
Definition not_rparen (c : ascii) : bool := negb (Ascii.eqb c ")").

(** [var\([^,)]+,\s*[^)]*] followed by the escaped value: [re.escape]
    makes every character of the value a literal. *)
Definition fallback_pattern (value : string) : regex :=
  Seq (lit "var(")
   (Seq (Plus not_comma_rparen)
   (Seq (Chr ",")
   (Seq (Star Chars.is_space)
   (Seq (Star not_rparen) (lit value))))).

(** [\d+%\s*\{] *)
Definition keyframe_pattern : regex :=
  Seq (Plus Chars.is_digit)
   (Seq (Chr "%") (Seq (Star Chars.is_space) (Chr "{"))).

(** [any(needle in line for needle in needles)] *)
Definition in_line (line : string) (needles : list string) : bool :=
  Py.any (fun needle => Py.contains needle line) needles.

Definition raw_value_properties : list string :=
  ["clip:"; "clip-path:"; "content:"; "transform:"; "animation:"; "@keyframes";
   "grid-template-columns:"; "grid-template-rows:"; "min-width:"; "max-width:";
   "min-height:"; "max-height:"; "clamp("; "backdrop-filter:"; "filter:"].

Definition spacing_properties : list string :=
  ["padding:"; "margin:"; "gap:"; "top:"; "bottom:"; "left:"; "right:"].

(** The chain of early returns; [pattern_name] is accepted and never
    read. *)
Definition should_skip_value (value line pattern_name : string) : bool :=
  if Py.contains "/*" line || Py.contains "*/" line
     || Py.startswith (strip line) "*" || Py.startswith (strip line) "//"
  then true
  else if Py.contains "var(" line && Py.contains value line then true
  else if search false (fallback_pattern value) line then true
  else if Py.contains "@media" line then true
  else if in_line line raw_value_properties then true
  else if Py.contains "data:" line || Py.contains "url(" line then true
  else if search false keyframe_pattern line then true
  else if Py.startswith value "0" then true
  else if Py.contains "calc(" line && Py.contains value line then true
  else if in_line line ["box-shadow:"; "text-shadow:"; "drop-shadow("] then true
  else if in_line line ["gradient("; "linear-gradient"; "radial-gradient"] then true
  else if negb (in_line line spacing_properties) then true
  else false.

(** [l[i]] for a Python integer: negative indices count from the end. *)
Definition index_int {A : Type} (l : list A) (i : Z) : result A :=
  if (0 <=? i)%Z then Py.index l (Z.to_nat i)
  else if (- Z.of_nat (length l) <=? i)%Z
       then Py.index l (Z.to_nat (Z.of_nat (length l) + i))
       else Raise IndexError.

(** The loop [while selector_line >= 0]; [remaining] is
    [selector_line + 1].  Both branches that follow the brace test step one
    line up. *)
Fixpoint scan_up (lines : list string) (remaining : nat) : result string :=
  match remaining with
  | O => Ok "Unknown selector"
  | S selector_line =>
      raw ← Py.index lines selector_line;
      let line := strip raw in
      if Py.contains "{" line then
        selector ← Py.index (Py.split "{" line) 0;
        Ok (strip selector)
      else if negb (String.eqb line "") && negb (Py.startswith line "/*")
              && negb (Py.startswith line "*")
      then scan_up lines selector_line
      else scan_up lines selector_line
  end.

Definition get_css_rule_context (content : string) (line_num : Z)
  : result string :=
  let lines := Py.split "010" content in
  if (Z.of_nat (length lines) <? line_num)%Z then
    if (line_num <=? Z.of_nat (length lines))%Z
    then raw ← index_int lines (line_num - 1); Ok (strip raw)
    else Ok ""
  else scan_up lines (Z.to_nat line_num).

(** The text before the first occurrence of a character. *)
Fixpoint before_char (sep : ascii) (s : string) : string :=
  match s with
  | EmptyString => EmptyString
  | String c s' =>
      if Ascii.eqb c sep then EmptyString else String c (before_char sep s')
  end.

(** The character does not occur in the text. *)
Definition free_of (c : ascii) (s : string) : bool :=
  all_chars (fun x => negb (Ascii.eqb x c)) s.

End Lint.

(** ** The style-sheet checker: [validate-css.py]

    [validate_css] prints a report and answers whether it found no issue.
    The model starts where the file has been read. *)

Module Validate.

(** [s.count(sub)] for a non-empty [sub]: occurrences counted left to
    right without overlap.  [skip] is the number of characters of the last
    occurrence still to be passed over. *)
Fixpoint count_from (sub : string) (skip : nat) (s : string) : nat :=
  match s with
  | EmptyString => 0
  | String _ s' =>
      match skip with
      | S n => count_from sub n s'
      | O =>
          if Py.startswith s sub
          then S (count_from sub (Nat.pred (String.length sub)) s')
          else count_from sub 0 s'
      end
  end.

Definition count (sub s : string) : nat := count_from sub 0 s.

(** [re.finditer] for a pattern that begins with [^] under
    [re.MULTILINE]: a match starts at the beginning of the text or right
    after a newline.  [bol] tells whether the current offset is such a
    place. *)
Fixpoint finditer_bol (r : regex) (skip : nat) (bol : bool) (s : string)
  : list match_obj :=
  match s with
  | EmptyString => []
  | String c s' =>
      let next_bol := Ascii.eqb c "010" in
      match skip with
      | S n => finditer_bol r n next_bol s'
      | O =>
          if bol then
            match match_at false r s with
            | Some m => m :: finditer_bol r (Nat.pred (span m)) next_bol s'
            | None => finditer_bol r 0 next_bol s'
            end
          else finditer_bol r 0 next_bol s'
      end
  end.

(** [:root\s*{], the part after the anchor. *)
Definition root_pattern : regex :=
  Seq (lit ":root") (Seq (Star Chars.is_space) (Chr "{")).

Definition var_name_char (c : ascii) : bool :=
  negb (Ascii.eqb c ":" || Ascii.eqb c ";" || Chars.is_space c).
Definition not_semicolon (c : ascii) : bool := negb (Ascii.eqb c ";").

(** [--[^:;\s]+\s*:[^;]*;] *)
Definition variable_pattern : regex :=
  Seq (lit "--")
   (Seq (Plus var_name_char)
   (Seq (Star Chars.is_space)
   (Seq (Chr ":")
   (Seq (Star not_semicolon) (Chr ";"))))).

(** [f"{n / 1024:.1f}"]: the quotient is exact in binary floating point,
    so the text is [n / 1024] rounded to tenths, ties to the even tenth. *)
Definition format_kb (n : nat) : string :=
  let tenths := (10 * n) / 1024 in
  let rest := (10 * n) mod 1024 in
  let rounded :=
    if 512 <? rest then S tenths
    else if (rest =? 512) && Nat.odd tenths then S tenths
    else tenths in
  pretty (rounded / 10) +:+ "." +:+ pretty (rounded mod 10).

(** The issues of one line, [i] being its number. *)
Definition line_issues (i : nat) (line : string) : list string :=
  if Py.contains "{" line && negb (Py.startswith (Lint.strip line) "/*") then
    (if 1 <? count "{" line
     then ["⚠️  Line " +:+ pretty i +:+ ": Multiple opening braces on one line"]
     else []) ++
    (if Py.contains "{{" line
     then ["❌ Line " +:+ pretty i +:+ ": Double opening braces"]
     else [])
  else [].

(** [for i, line in enumerate(lines, i)] *)
Fixpoint lines_issues (i : nat) (lines : list string) : list string :=
  match lines with
  | [] => []
  | line :: rest => line_issues i line ++ lines_issues (S i) rest
  end.

(** The byte order mark, as the three bytes that encode it. *)
Definition bom : string := String "239" (String "187" (String "191" "")).
Definition nul : string := String "000" "".

(** ["=" * 50] *)
Definition rule : string :=
  "==================================================".

(** Everything [validate_css] does once the file has been read. *)
Definition validate_content (css_content : string) : io bool :=
  let issues : list string := [] in
  print ("📊 File size: " +:+ format_kb (String.length css_content) +:+ " KB") ;;
  let open_comments := count "/*" css_content in
  let close_comments := count "*/" css_content in
  issues ← (if negb (open_comments =? close_comments)
            then mret (issues ++ ["❌ Unclosed comments: " +:+ pretty open_comments
                                  +:+ " open, " +:+ pretty close_comments +:+ " closed"])
            else print ("✅ Comments balanced: " +:+ pretty open_comments +:+ " pairs") ;;
                 mret issues);
  let open_braces := count "{" css_content in
  let close_braces := count "}" css_content in
  issues ← (if negb (open_braces =? close_braces)
            then mret (issues ++ ["❌ Unclosed braces: " +:+ pretty open_braces
                                  +:+ " open, " +:+ pretty close_braces +:+ " closed"])
            else print ("✅ Braces balanced: " +:+ pretty open_braces +:+ " pairs") ;;
                 mret issues);
  let root_blocks := length (finditer_bol root_pattern 0 true css_content) in
  print ("📍 :root blocks found: " +:+ pretty root_blocks) ;;
  let issues := if 1 <? root_blocks
                then issues ++ ["⚠️  Multiple :root blocks: " +:+ pretty root_blocks]
                else issues in
  let lines := Py.split "010" css_content in
  let issues := issues ++ lines_issues 1 lines in
  let var_count := length (finditer false variable_pattern css_content) in
  print ("📝 CSS variables defined: ~" +:+ pretty var_count) ;;
  let issues := if Py.contains ";;" css_content
                then issues ++ ["❌ Double semicolons found"] else issues in
  (if Py.contains "{}" css_content && negb (Py.contains "{{}}" css_content) then
     let empty_blocks := count "{}" css_content in
     if 0 <? empty_blocks
     then print ("⚠️  Empty rule blocks: " +:+ pretty empty_blocks)
     else mret tt
   else mret tt) ;;
  let issues := if Py.contains nul css_content
                then issues ++ ["❌ Null bytes in file"] else issues in
  let issues := if Py.startswith css_content bom
                then issues ++ ["⚠️  File starts with BOM (Byte Order Mark)"]
                else issues in
  print (nl +:+ rule) ;;
  (if negb (is_empty issues) then
     print "❌ ISSUES FOUND:" ;;
     for_io issues (fun issue => print ("  " +:+ issue))
   else print "✅ No major issues detected!") ;;
  mret (length issues =? 0).

(** The issues [validate_content] collects, in the order it appends
    them. *)
Definition all_issues (css_content : string) : list string :=
  (if negb (count "/*" css_content =? count "*/" css_content)
   then ["❌ Unclosed comments: " +:+ pretty (count "/*" css_content)
         +:+ " open, " +:+ pretty (count "*/" css_content) +:+ " closed"]
   else []) ++
  (if negb (count "{" css_content =? count "}" css_content)
   then ["❌ Unclosed braces: " +:+ pretty (count "{" css_content)
         +:+ " open, " +:+ pretty (count "}" css_content) +:+ " closed"]
   else []) ++
  (if 1 <? length (finditer_bol root_pattern 0 true css_content)
   then ["⚠️  Multiple :root blocks: "
         +:+ pretty (length (finditer_bol root_pattern 0 true css_content))]
   else []) ++
  lines_issues 1 (Py.split "010" css_content) ++
  (if Py.contains ";;" css_content then ["❌ Double semicolons found"] else []) ++
  (if Py.contains nul css_content then ["❌ Null bytes in file"] else []) ++
  (if Py.startswith css_content bom
   then ["⚠️  File starts with BOM (Byte Order Mark)"] else []).

(** The closing lines of the report for a list of issues. *)
Definition summary (issues : list string) : list string :=
  if is_empty issues then ["✅ No major issues detected!"]
  else "❌ ISSUES FOUND:" :: ((fun issue => "  " +:+ issue) <$> issues).

End Validate.

(** A run whose last events are [t]. *)
Definition ends_with {A : Type} (t : list event) (m : io A) : Prop :=
  exists before, trace m = before ++ t.

(** ** Further sample inputs *)

Definition sample_css : string :=
  ".btn {" +:+ nl +:+ "  color: red;" +:+ nl +:+ "  padding: 4px;" +:+ nl +:+ "}".

Definition fs_findings (path : string) : file :=
  if String.eqb path "components.css" then Readable ".modal {}"
  else Readable (open_tag "div" "id" "cards").

(** ** Tactics *)


(** Decide a closed membership or equality statement by evaluation. *)
Ltac by_evaluation := compute_done.

(** * Properties *)

(** ** The exception monad and loops with an invariant *)

Lemma result_bind_ok {A B : Type} (v : A) (f : A -> result B) :
  (Ok v ≫= f) = f v.
Proof. reflexivity. Qed.

Lemma for_each_inv {A S : Type} (I : list A -> S -> Prop)
      (body : A -> S -> result S) (xs : list A) :
  forall done st,
    I done st ->
    (forall done' x st', I done' st' -> x ∈ xs ->
       exists st'', body x st' = Ok st'' /\ I (done' ++ [x]) st'') ->
    exists st', for_each xs body st = Ok st' /\ I (done ++ xs) st'.
Proof.
  induction xs as [|x xs IH]; intros done st HI Hstep.
  - exists st. rewrite app_nil_r. split; [reflexivity | assumption].
  - destruct (Hstep done x st HI) as (st1 & Hb & HI1); [left|].
    destruct (IH (done ++ [x]) st1 HI1) as (st2 & Hf & HI2).
    { intros d y s0 Hd Hy. apply Hstep; [assumption | by right]. }
    exists st2. split.
    + cbn. rewrite Hb. exact Hf.
    + by rewrite <- app_assoc in HI2.
Qed.

(** ** The engine: where the capture comes from *)

Module ReFacts.

Section Continuations.
Context {R : Type} (Q : R -> Prop) (ic : bool).

Lemma star_post p s (k : string -> option R) res :
  star p s k = Some res -> exists s', k s' = Some res.
Proof.
  induction s as [|x s IH]; cbn; [eauto|].
  destruct (p x); [|eauto].
  destruct (star p s k) eqn:E; [|eauto].
  intros [= <-]. by apply IH.
Qed.

Lemma rmatch_post r : forall s g (k : string -> option string -> option R) res,
  rmatch ic r s g k = Some res -> exists s' g', k s' g' = Some res.
Proof.
  induction r as [|c|p|r1 IH1 r2 IH2|r1 IH1 r2 IH2|p|r1 IH1];
    intros s g k res; cbn.
  - eauto.
  - destruct s as [|x s]; [done|]. destruct (chr_eq ic c x); [eauto|done].
  - destruct s as [|x s]; [done|]. destruct (p x); [eauto|done].
  - intros H. apply IH1 in H as (s1 & g1 & H). by apply IH2 in H.
  - destruct (rmatch ic r1 s g k) eqn:E.
    + intros [= <-]. by apply IH1 in E.
    + apply IH2.
  - intros H. apply star_post in H as (s' & H). eauto.
  - intros H. apply IH1 in H as (s1 & g1 & H). eauto.
Qed.

Lemma rmatch_set r : forall s g (k : string -> option string -> option R) res,
  good_when_set Q k -> is_Some g -> rmatch ic r s g k = Some res -> Q res.
Proof.
  induction r as [|c|p|r1 IH1 r2 IH2|r1 IH1 r2 IH2|p|r1 IH1];
    intros s g k res Hk Hg; cbn.
  - by apply Hk.
  - destruct s as [|x s]; [done|]. destruct (chr_eq ic c x); [by apply Hk|done].
  - destruct s as [|x s]; [done|]. destruct (p x); [by apply Hk|done].
  - apply IH1; [|assumption]. intros s1 g1 res1 Hg1. by apply IH2.
  - destruct (rmatch ic r1 s g k) eqn:E.
    + intros [= <-]. by eapply IH1.
    + by apply IH2.
  - intros H. apply star_post in H as (s' & H). by eapply Hk.
  - intros H. apply rmatch_post in H as (s1 & g1 & H). cbn in H.
    eapply Hk; [|exact H]. by eexists.
Qed.

Lemma rmatch_captures r : forall s g (k : string -> option string -> option R) res,
  captures r = true -> good_when_set Q k ->
  rmatch ic r s g k = Some res -> Q res.
Proof.
  induction r as [|c|p|r1 IH1 r2 IH2|r1 IH1 r2 IH2|p|r1 IH1];
    intros s g k res Hc Hk; cbn in Hc |- *; try discriminate.
  - apply orb_true_iff in Hc as [Hc|Hc].
    + apply IH1; [assumption|]. intros s1 g1 res1 Hg1. by apply rmatch_set.
    + intros H. apply rmatch_post in H as (s1 & g1 & H). by eapply IH2.
  - apply andb_true_iff in Hc as [Hc1 Hc2].
    destruct (rmatch ic r1 s g k) eqn:E.
    + intros [= <-]. by eapply IH1.
    + by apply IH2.
  - intros H. apply rmatch_post in H as (s1 & g1 & H). cbn in H.
    eapply Hk; [|exact H]. by eexists.
Qed.
End Continuations.

(** A pattern that always captures hands every match object a group. *)
Lemma match_at_group ic r s m :
  captures r = true -> match_at ic r s = Some m -> is_Some (group1 m).
Proof.
  intros Hc H. unfold match_at in H.
  eapply (rmatch_captures (fun m => is_Some (group1 m))) in H; try eassumption.
  intros s' g res Hg [= <-]. exact Hg.
Qed.

Lemma finditer_from_group ic r s : forall skip m,
  captures r = true -> m ∈ finditer_from ic r skip s -> is_Some (group1 m).
Proof.
  induction s as [|x s IH]; intros skip m Hc; cbn.
  - by intros ?%elem_of_nil.
  - destruct skip as [|n]; [|by apply IH].
    destruct (match_at ic r (String x s)) as [m0|] eqn:E; [|by apply IH].
    intros [->|Hin]%elem_of_cons; [by eapply match_at_group | by eapply IH].
Qed.

Lemma finditer_group ic r s m :
  captures r = true -> m ∈ finditer ic r s -> is_Some (group1 m).
Proof. apply finditer_from_group. Qed.

End ReFacts.

(** ** The string helpers *)

Module PyFacts.

Lemma split_cons sep s : exists w ws, Py.split sep s = w :: ws.
Proof.
  induction s as [|c s (w & ws & IH)]; cbn; [eauto|].
  destruct (Ascii.eqb c sep); [eauto|]. rewrite IH. eauto.
Qed.

(** [name.split('-')[0]] is the text before the first hyphen. *)
Lemma split_head name :
  Py.index (Py.split "-" name) 0 = Ok (before_hyphen name).
Proof.
  unfold Py.index.
  induction name as [|c name IH]; cbn; [reflexivity|].
  destruct (Ascii.eqb c "-"); [reflexivity|].
  destruct (split_cons "-" name) as (w & ws & E). rewrite E in IH |- *.
  cbn in IH |- *. by injection IH as ->.
Qed.

Lemma contains_hyphen_cons c name :
  Py.contains "-" (String c name) = Ascii.eqb c "-" || Py.contains "-" name.
Proof.
  cbn [Py.contains Py.startswith]. rewrite (Ascii.eqb_sym "-" c).
  destruct (Ascii.eqb c "-"); reflexivity.
Qed.

(** One part exactly when there is no hyphen. *)
Lemma split_single name :
  (length (Py.split "-" name) =? 1) = negb (hyphenated name).
Proof.
  unfold hyphenated.
  induction name as [|c name IH]; [reflexivity|].
  rewrite contains_hyphen_cons. cbn [Py.split].
  destruct (Ascii.eqb c "-"); cbn.
  - destruct (split_cons "-" name) as (w & ws & ->). reflexivity.
  - destruct (split_cons "-" name) as (w & ws & E). rewrite E in IH |- *.
    exact IH.
Qed.

Lemma before_hyphen_plain name : hyphenated (before_hyphen name) = false.
Proof.
  unfold hyphenated.
  induction name as [|c name IH]; [reflexivity|]. cbn [before_hyphen].
  destruct (Ascii.eqb c "-") eqn:E; [reflexivity|].
  by rewrite contains_hyphen_cons, E.
Qed.

(** The base of a name is never one of the two hyphenated names the
    second loop compares it with. *)
Lemma base_not_secondary name :
  Py.mem (before_hyphen name) ["empty-state"; "profile-card"] = false.
Proof.
  unfold Py.mem. apply bool_decide_eq_false. intros Hin.
  pose proof (before_hyphen_plain name) as Hp.
  repeat (apply elem_of_cons in Hin as [Hin|Hin];
          [by rewrite Hin in Hp|]).
  by apply elem_of_nil in Hin.
Qed.

Lemma sorted_elem x l : x ∈ Py.sorted l <-> x ∈ l.
Proof. unfold Py.sorted. by rewrite merge_sort_Permutation. Qed.

Lemma list_of_set_elem x l : x ∈ Py.list_of_set l <-> x ∈ l.
Proof. unfold Py.list_of_set. by rewrite elem_of_elements, elem_of_list_to_set. Qed.

End PyFacts.

(** ** What the two extraction loops compute *)

Module Extraction.

Import ReFacts PyFacts.

Lemma filter_step_kept name filtered :
  filter_step (Some name) filtered =
  Ok (if kept name then filtered ++ [name] else filtered).
Proof.
  unfold filter_step, kept. cbn. rewrite split_head. cbn.
  rewrite split_single, base_not_secondary.
  destruct (hyphenated name); cbn; [|reflexivity].
  by destruct (Py.mem name important_variants).
Qed.

Lemma omap_group_snoc (ms : list match_obj) m name :
  group1 m = Some name -> omap group1 (ms ++ [m]) = omap group1 ms ++ [name].
Proof. intros H. rewrite omap_app. cbn. by rewrite H. Qed.

(** The first loop over matches that all carry a group. *)
Lemma collect_loop (ms : list match_obj) :
  (forall m, m ∈ ms -> is_Some (group1 m)) ->
  exists components,
    for_each ms collect_step [] = Ok components /\
    (forall c, c ∈ components -> is_Some c) /\
    (forall name, Some name ∈ components <-> name ∈ omap group1 ms).
Proof.
  intros Hg.
  destruct (for_each_inv
    (fun done components =>
       (forall c, c ∈ components -> is_Some c) /\
       (forall name, Some name ∈ components <-> name ∈ omap group1 done))
    collect_step ms [] []) as (components & Hf & HI).
  - split; intros ?; [|split]; by intros ?%elem_of_nil.
  - intros done m components [Hs Hn] Hin.
    destruct (Hg m Hin) as [name Hname]. unfold collect_step.
    case_bool_decide as Hmem; eexists; (split; [reflexivity|]).
    + split; [assumption|]. intros n.
      rewrite (omap_group_snoc _ _ _ Hname), elem_of_app, list_elem_of_singleton.
      rewrite <- Hn. split; [tauto|]. intros [?| ->]; [assumption|].
      by rewrite <- Hname.
    + split.
      * intros c [?| ->%list_elem_of_singleton]%elem_of_app; [by apply Hs|].
        by rewrite Hname.
      * intros n.
        rewrite (omap_group_snoc _ _ _ Hname), !elem_of_app, !list_elem_of_singleton.
        rewrite <- Hn, Hname. split; (intros [?|E]; [by left|right]); congruence.
  - exists components. by split.
Qed.

(** The second loop over names that are all strings. *)
Lemma filter_loop (components : list (option string)) :
  (forall c, c ∈ components -> is_Some c) ->
  exists filtered,
    for_each components filter_step [] = Ok filtered /\
    (forall name, name ∈ filtered <-> Some name ∈ components /\ kept name = true).
Proof.
  intros Hs.
  destruct (for_each_inv
    (fun done filtered =>
       forall name, name ∈ filtered <-> Some name ∈ done /\ kept name = true)
    filter_step components [] []) as (filtered & Hf & HI).
  - intros name. split; [by intros ?%elem_of_nil | by intros [?%elem_of_nil _]].
  - intros done c filtered HI Hin.
    destruct (Hs c Hin) as [name ->]. rewrite filter_step_kept.
    eexists; split; [reflexivity|]. intros n.
    destruct (kept name) eqn:Hk.
    + rewrite !elem_of_app, !list_elem_of_singleton, HI.
      split; [intros [[? ?]| ->]; [tauto | split; [by right | assumption]]|].
      intros [[?| [= ->]] ?]; tauto.
    + rewrite HI, elem_of_app, list_elem_of_singleton.
      split; [tauto|]. intros [[?| [= ->]] ?]; [tauto | congruence].
  - exists filtered. by split.
Qed.

(** Component extraction returns, and returns the kept matched names. *)
Lemma components_spec css :
  exists components,
    extract_semantic_components css = Ok components /\
    (forall name, name ∈ components <->
                  name ∈ matched_names css /\ kept name = true).
Proof.
  unfold extract_semantic_components, matched_names.
  destruct (collect_loop (finditer false component_pattern css))
    as (cs & -> & Hs & Hn).
  { intros m. by apply finditer_group. }
  cbn. destruct (filter_loop cs Hs) as (filtered & -> & Hk). cbn.
  eexists; split; [reflexivity|]. intros name.
  by rewrite sorted_elem, list_of_set_elem, Hk, Hn.
Qed.

Lemma section_step_some m name sections :
  group1 m = Some name ->
  section_step m sections =
  Ok (if blocked name then sections else sections ++ [name]).
Proof.
  intros H. unfold section_step, blocked. rewrite H. cbn.
  match goal with |- context [negb ?b] => by destruct b end.
Qed.

(** The section loop appends the ids that are not blocked. *)
Lemma section_loop (ms : list match_obj) :
  (forall m, m ∈ ms -> is_Some (group1 m)) ->
  for_each ms section_step [] =
  Ok (List.filter (fun name => negb (blocked name)) (omap group1 ms)).
Proof.
  intros Hg.
  destruct (for_each_inv
    (fun done sections =>
       sections = List.filter (fun name => negb (blocked name)) (omap group1 done))
    section_step ms [] []) as (sections & Hf & HI); [reflexivity| |by subst].
  intros done m sections -> Hin.
  destruct (Hg m Hin) as [name Hname].
  rewrite (section_step_some _ _ _ Hname).
  eexists; split; [reflexivity|].
  rewrite (omap_group_snoc _ _ _ Hname), List.filter_app. cbn [List.filter].
  destruct (blocked name); cbn [negb]; by rewrite ?app_nil_r.
Qed.

(** Section extraction returns the sorted list of the ids that are not
    blocked, one entry per matching tag. *)
Lemma sections_spec html :
  extract_documentation_sections html =
  Ok (Py.sorted (List.filter (fun name => negb (blocked name)) (matched_ids html))).
Proof.
  unfold extract_documentation_sections, matched_ids.
  rewrite section_loop; [reflexivity|].
  intros m. by apply finditer_group.
Qed.

End Extraction.

(** ** What the pairing loop computes *)

Module Pairing.

Import PyFacts Extraction.

Lemma potential_sections_candidates component :
  potential_sections_of component = Ok (candidates component).
Proof.
  unfold potential_sections_of, candidates, Py.getitem.
  rewrite split_head.
  change (Ok (before_hyphen component) ≫= ?f) with (f (before_hyphen component)).
  cbv beta.
  destruct (pluralization_map !! before_hyphen component) as [plural|] eqn:E.
  - rewrite bool_decide_eq_true_2 by (by eexists). reflexivity.
  - rewrite bool_decide_eq_false_2 by (by intros [? ?]). reflexivity.
Qed.

Lemma first_matching_map component sections potential m :
  component_to_section (first_matching component sections potential m) =
  match first_present sections potential with
  | Some p => <[component := p]> (component_to_section m)
  | None => component_to_section m
  end.
Proof.
  unfold first_present.
  induction potential as [|p rest IH]; cbn; [reflexivity|].
  unfold Py.mem. by destruct (bool_decide (p ∈ sections)).
Qed.

Lemma first_present_elem sections potential s :
  first_present sections potential = Some s -> s ∈ sections /\ s ∈ potential.
Proof.
  unfold first_present. intros [Hin Hs%bool_decide_eq_true]%List.find_some.
  split; [assumption | by apply list_elem_of_In].
Qed.

(** The mapping loop returns, and maps every listed component to its first
    present candidate. *)
Lemma mapping_spec (components sections : list string) :
  exists m,
    create_semantic_mapping components sections = Ok m /\
    forall c, component_to_section m !! c =
              if bool_decide (c ∈ components)
              then first_present sections (candidates c) else None.
Proof.
  unfold create_semantic_mapping.
  destruct (for_each_inv
    (fun done m =>
       forall c, component_to_section m !! c =
                 if bool_decide (c ∈ done)
                 then first_present sections (candidates c) else None)
    (mapping_step sections) components [] (Mapping ∅ ∅))
    as (m & Hf & HI); [done| |by exists m].
  intros done x m HI _. unfold mapping_step.
  rewrite potential_sections_candidates.
  eexists; split; [reflexivity|]. intros c.
  rewrite first_matching_map.
  destruct (decide (c = x)) as [->|Hne].
  - rewrite bool_decide_eq_true_2 by (apply elem_of_app; right; by left).
    destruct (first_present sections (candidates x)) eqn:E.
    + by rewrite lookup_insert_eq.
    + rewrite HI. by case_bool_decide.
  - assert (c ∈ done ++ [x] <-> c ∈ done) as Hiff.
    { rewrite elem_of_app, list_elem_of_singleton. tauto. }
    rewrite (bool_decide_ext _ _ Hiff), <- HI.
    destruct (first_present sections (candidates x));
      [by rewrite lookup_insert_ne|done].
  Qed.

End Pairing.

(** ** What the audit computes *)

Module Audit.

Import PyFacts Extraction Pairing.

Lemma audit_spec css html :
  exists components sections m,
    extract_semantic_components css = Ok components /\
    extract_documentation_sections html = Ok sections /\
    create_semantic_mapping components sections = Ok m /\
    audit_contents css html =
    Ok (AuditResult
          (filter (fun c => component_to_section m !! c = None) components)
          (filter (fun s => s ∉ (map_img (component_to_section m) : gset string))
                  (filter (fun s => component_like s = true) sections))
          (length components) (length sections)).
Proof.
  destruct (components_spec css) as (components & Hc & _).
  destruct (mapping_spec components
              (Py.sorted (List.filter (fun name => negb (blocked name))
                                      (matched_ids html)))) as (m & Hm & _).
  eexists components, _, m. unfold audit_contents.
  rewrite Hc, sections_spec, result_bind_ok, result_bind_ok, Hm.
  by rewrite result_bind_ok.
Qed.






End Audit.

(** ** What the driver does *)

Module DriverFacts.

Lemma for_io_print {A : Type} (xs : list A) (f : A -> string) :
  for_io xs (fun x => print (f x)) =
  IO ((fun x => EvPrint (f x)) <$> xs) (Ok tt).
Proof.
  induction xs as [|x xs IH]; [reflexivity|].
  cbn [for_io]. rewrite IH. reflexivity.
Qed.

(** Any argument count other than three ends the run with status 1. *)
Lemma main_usage fs argv :
  length argv <> 3 -> exit_status (main fs argv) = 1.
Proof.
  intros H. unfold main.
  destruct (length argv =? 3) eqn:E; [by apply Nat.eqb_eq in E|].
  reflexivity.
Qed.

Lemma main_css_missing fs prog css html :
  fs css = Missing ->
  main fs [prog; css; html] =
  IO [EvExists css; EvPrint ("❌ Error: CSS file '" +:+ css +:+ "' not found.")]
     (Raise (SystemExit 1)).
Proof.
  intros H. unfold main, path_exists. cbn. rewrite H. reflexivity.
Qed.

(** With three arguments, a file that is missing or cannot be read ends
    the run with status 1. *)
Lemma main_unreadable fs prog css html :
  ~ (readable (fs css) /\ readable (fs html)) ->
  exit_status (main fs [prog; css; html]) = 1.
Proof.
  intros H. unfold main, path_exists, audit_documentation, try_read. cbn.
  destruct (fs css) as [|rc|c] eqn:Ec; cbn; [reflexivity| |].
  - destruct (fs html) as [|rh|h] eqn:Eh; cbn; rewrite ?Ec; reflexivity.
  - destruct (fs html) as [|rh|h] eqn:Eh; cbn; rewrite ?Ec; cbn;
      rewrite ?Eh; [reflexivity..|].
    exfalso. apply H. split; by eexists.
Qed.

(** With both files readable the status is 0 exactly when the audit found
    nothing. *)
Lemma main_readable fs prog css html c h r :
  fs css = Readable c -> fs html = Readable h ->
  audit_contents c h = Ok r ->
  exit_status (main fs [prog; css; html]) =
  if is_empty (undocumented r) && is_empty (stale_sections r) then 0 else 1.
Proof.
  intros Hc Hh Ha. unfold main, path_exists, audit_documentation, try_read.
  cbn. rewrite Hc. cbn. rewrite Hh. cbn. rewrite Ha. cbn.
  unfold report_undocumented, report_stale. rewrite !for_io_print.
  destruct (undocumented r), (stale_sections r); reflexivity.
Qed.

End DriverFacts.

(** ** One opening tag, in any letter case *)

Module TagFacts.

Import ReFacts PyFacts Extraction.

Lemma str_app_cons c s t : String c s +:+ t = String c (s +:+ t).
Proof. reflexivity. Qed.
Lemma str_app_nil t : "" +:+ t = t.
Proof. reflexivity. Qed.

Lemma length_app u w : String.length (u +:+ w) = String.length u + String.length w.
Proof. induction u as [|x u IH]; [reflexivity|]. rewrite str_app_cons. cbn. by rewrite IH. Qed.

Lemma consumed_app u w : consumed (u +:+ w) w = u.
Proof.
unfold consumed. rewrite length_app.
replace (String.length u + String.length w - String.length w) with (String.length u) by lia.
induction u as [|x u IH]; [by destruct w|].
rewrite str_app_cons. cbn. by rewrite IH.
Qed.


(** A greedy repetition whose every stop fails. *)
Lemma star_over {R} p (k : string -> option R) u w :
all_chars p u = true ->
(forall x s, p x = true -> k (String x s) = None) ->
star p w k = k w ->
star p (u +:+ w) k = k w.
Proof.
intros Hu Hk Hw. induction u as [|x u IH]; [exact Hw|].
cbn in Hu. apply andb_true_iff in Hu as [Hx Hu].
rewrite str_app_cons. cbn. rewrite Hx, (IH Hu).
destruct (k w) eqn:E; [reflexivity|]. by apply Hk.
Qed.

Section Tag.

Variables (q1 q2 : ascii) (after : string).
Hypothesis Hq1 : Chars.is_quote q1 = true.
Hypothesis Hq2 : Chars.is_quote q2 = true.







End Tag.




End TagFacts.

(** * The claims *)

Import PyFacts Extraction Pairing Audit DriverFacts TagFacts.

(** C3. Every component is mapped by trying, in this order, the alias of
    its base from the table, the base, and the full name; the first of
    them that is a section id is the target, and a component none of whose
    candidates is a section id stays unmapped and is reported
    undocumented. *)
Theorem C3_first_present_candidate_wins :
  (forall components sections : list string,
     exists m,
       create_semantic_mapping components sections = Ok m /\
       forall c, component_to_section m !! c =
                 if bool_decide (c ∈ components)
                 then first_present sections (candidates c) else None) /\
  (forall css html : string,
     exists components sections r,
       extract_semantic_components css = Ok components /\
       extract_documentation_sections html = Ok sections /\
       audit_contents css html = Ok r /\
       forall c, c ∈ undocumented r <->
                 c ∈ components /\ first_present sections (candidates c) = None).
Proof.
  split; [exact mapping_spec|].
  intros css html.
  destruct (audit_spec css html) as (components & sections & m & Hc & Hs & Hm & Ha).
  destruct (mapping_spec components sections) as (m' & Hm' & Hlook).
  assert (m' = m) as -> by congruence.
  exists components, sections. eexists. split_and!; [done..|].
  intros c. cbn. rewrite list_elem_of_filter, Hlook.
  case_bool_decide; [tauto|]. split; [tauto|]. by intros [? _].
Qed.




(** C5, the claim as stated fails: [btn] and [btn-primary] are distinct
    components and both are mapped to the section [buttons]. *)
Lemma C5_two_components_one_section :
  ~ (forall css html components sections m c1 c2 s1 s2,
       extract_semantic_components css = Ok components ->
       extract_documentation_sections html = Ok sections ->
       create_semantic_mapping components sections = Ok m ->
       c1 <> c2 ->
       component_to_section m !! c1 = Some s1 ->
       component_to_section m !! c2 = Some s2 ->
       s1 <> s2).
Proof.
  intros H.
  destruct (mapping_spec ["btn"; "btn-primary"] ["buttons"]) as (m & Hm & Hlook).
  apply (H css_buttons html_buttons ["btn"; "btn-primary"] ["buttons"] m
           "btn" "btn-primary" "buttons" "buttons");
    [by vm_compute | by vm_compute | exact Hm | discriminate
    | rewrite Hlook; by vm_compute | rewrite Hlook; by vm_compute | reflexivity].
Qed.

(** C5, amended. The mapping is many-to-one-or-none: a mapped component
    has one target, which is an extracted section id and one of the
    component's own candidates; components that share a base whose alias is
    a section id are all mapped to that same section. *)
Theorem C5_mapping_many_to_one :
  forall components sections : list string,
    exists m,
      create_semantic_mapping components sections = Ok m /\
      (forall c s, component_to_section m !! c = Some s ->
                   c ∈ components /\ s ∈ sections /\ s ∈ candidates c) /\
      (forall c1 c2 plural,
         c1 ∈ components -> c2 ∈ components ->
         before_hyphen c1 = before_hyphen c2 ->
         pluralization_map !! before_hyphen c1 = Some plural ->
         plural ∈ sections ->
         component_to_section m !! c1 = Some plural /\
         component_to_section m !! c2 = Some plural).
Proof.
  intros components sections.
  destruct (mapping_spec components sections) as (m & Hm & Hlook).
  exists m. split_and!; [done| |].
  - intros c s. rewrite Hlook. case_bool_decide; [|done].
    intros [? ?]%first_present_elem. done.
  - intros c1 c2 plural H1 H2 Hb Hp Hs.
    assert (forall c, c ∈ components -> before_hyphen c = before_hyphen c1 ->
                      component_to_section m !! c = Some plural) as Hgo.
    { intros c Hc Hbc. rewrite Hlook, bool_decide_eq_true_2 by done.
      unfold candidates, first_present. rewrite Hbc, Hp. cbn.
      by rewrite bool_decide_eq_true_2. }
    split; apply Hgo; done.
Qed.

Lemma C5_mapping_many_to_one_witness :
  exists m,
    create_semantic_mapping ["btn"; "btn-primary"] ["buttons"] = Ok m /\
    component_to_section m !! "btn" = Some "buttons" /\
    component_to_section m !! "btn-primary" = Some "buttons".
Proof.
  destruct (C5_mapping_many_to_one ["btn"; "btn-primary"] ["buttons"])
    as (m & Hm & _ & Hshare).
  exists m. split; [exact Hm|].
  apply (Hshare "btn" "btn-primary" "buttons");
    [by_evaluation | by_evaluation | reflexivity | by vm_compute | by_evaluation].
Defined.

(** C1. With three arguments and two readable files the exit status is 0
    exactly when the undocumented list and the stale list are both empty,
    and 1 otherwise; the status is 1 as well when the argument count is
    wrong and when a file is missing or cannot be read. *)
Theorem C1_exit_status :
  forall (fs : string -> file) (argv : list string),
    (length argv <> 3 -> exit_status (main fs argv) = 1) /\
    (forall prog css html,
       argv = [prog; css; html] ->
       ~ (readable (fs css) /\ readable (fs html)) ->
       exit_status (main fs argv) = 1) /\
    (forall prog css html css_content html_content,
       argv = [prog; css; html] ->
       fs css = Readable css_content ->
       fs html = Readable html_content ->
       exists r,
         audit_contents css_content html_content = Ok r /\
         (exit_status (main fs argv) = 0 <->
          undocumented r = [] /\ stale_sections r = []) /\
         (exit_status (main fs argv) = 1 <->
          undocumented r <> [] \/ stale_sections r <> [])).
Proof.
  intros fs argv. split_and!.
  - apply main_usage.
  - intros prog css html ->. apply main_unreadable.
  - intros prog css html c h -> Hc Hh.
    destruct (audit_spec c h) as (? & ? & ? & _ & _ & _ & Ha).
    eexists. split; [exact Ha|].
    rewrite (main_readable _ _ _ _ _ _ _ Hc Hh Ha). cbn [undocumented stale_sections].
    match goal with
    | |- context [is_empty ?u && is_empty ?t] => destruct u, t
    end; cbn; split; split; intros; try done; intuition congruence.
Qed.

Lemma C1_exit_status_witness :
  exit_status (main fs_buttons ["audit-documentation.py"]) = 1 /\
  exit_status (main fs_buttons ["audit-documentation.py"; "missing.css"; "index.html"]) = 1 /\
  exit_status (main fs_buttons ["audit-documentation.py"; "components.css"; "index.html"]) = 0.
Proof.
  split_and!.
  - apply (C1_exit_status fs_buttons ["audit-documentation.py"]). discriminate.
  - eapply (C1_exit_status fs_buttons); [reflexivity|].
    intros [[content H] _]. discriminate H.
  - destruct (proj2 (proj2 (C1_exit_status fs_buttons
        ["audit-documentation.py"; "components.css"; "index.html"]))
        _ _ _ css_buttons html_buttons eq_refl eq_refl eq_refl)
      as (r & Ha & Hzero & _).
    apply Hzero. vm_compute in Ha. injection Ha as <-. by split.
Defined.

(** C9. When the CSS path does not exist the run consists of one existence
    probe, of the CSS path, and one printed line that mentions that path,
    and it ends with status 1: the HTML path is never probed or opened. *)
Theorem C9_missing_css_aborts_first :
  forall (fs : string -> file) (prog css html : string),
    fs css = Missing ->
    exists message,
      trace (main fs [prog; css; html]) = [EvExists css; EvPrint message] /\
      mentions message css /\
      exit_status (main fs [prog; css; html]) = 1.
Proof.
  intros fs prog css html H. rewrite (main_css_missing _ _ _ _ H).
  eexists. split_and!; [reflexivity| |reflexivity].
  by exists "❌ Error: CSS file '", "' not found.".
Qed.

Lemma C9_missing_css_aborts_first_witness :
  exists message,
    trace (main fs_buttons ["audit-documentation.py"; "missing.css"; "absent.html"])
    = [EvExists "missing.css"; EvPrint message] /\
    mentions message "missing.css" /\
    exit_status (main fs_buttons ["audit-documentation.py"; "missing.css"; "absent.html"]) = 1.
Proof.
  apply (C9_missing_css_aborts_first fs_buttons). reflexivity.
Defined.

(** C7. On the style sheet with the rules [.btn {}], [.btn-primary {}] and
    [.card-internal-detail {}] and the document whose container carries
    the id [buttons], both [btn] and [btn-primary] are mapped to the
    section [buttons] and none is undocumented, [card-internal-detail] is
    matched by the pattern but is not a component, and the run returns
    normally. *)
Theorem C7_buttons_example :
  extract_semantic_components css_buttons = Ok ["btn"; "btn-primary"] /\
  "card-internal-detail" ∈ matched_names css_buttons /\
  extract_documentation_sections html_buttons = Ok ["buttons"] /\
  (exists m,
     create_semantic_mapping ["btn"; "btn-primary"] ["buttons"] = Ok m /\
     component_to_section m !! "btn" = Some "buttons" /\
     component_to_section m !! "btn-primary" = Some "buttons" /\
     component_to_section m !! "card-internal-detail" = None) /\
  audit_contents css_buttons html_buttons = Ok (AuditResult [] [] 2 1) /\
  outcome (main fs_buttons ["audit-documentation.py"; "components.css"; "index.html"])
  = Ok tt.
Proof.
  split_and!; [by vm_compute | by_evaluation | by vm_compute | |
               by vm_compute | by vm_compute].
  destruct (mapping_spec ["btn"; "btn-primary"] ["buttons"]) as (m & Hm & Hlook).
  exists m. rewrite !Hlook. split_and!; [exact Hm | by vm_compute..].
Qed.

(** C8. Extraction, pairing and the audit return a value on every pair of
    texts; a style sheet with unbalanced braces and a document with a tag
    that is never closed just give fewer matches. *)
Theorem C8_never_raises :
  (forall css html : string,
     (exists components, extract_semantic_components css = Ok components) /\
     (exists sections, extract_documentation_sections html = Ok sections) /\
     (exists r, audit_contents css html = Ok r)) /\
  extract_semantic_components ".btn { color: red; }} .card" = Ok ["btn"] /\
  extract_documentation_sections "<div id='cards'" = Ok [].
Proof.
  split_and!; [|by vm_compute..].
  intros css html.
  destruct (audit_spec css html) as (components & sections & m & Hc & Hs & _ & Ha).
  split_and!; eexists; eassumption.
Qed.

(** C6, the claim as stated fails: two containers with the id [cards] give
    the list [cards; cards], which repeats an identifier. *)
Lemma C6_duplicate_ids_are_kept :
  ~ (forall html sections,
       extract_documentation_sections html = Ok sections ->
       StronglySorted String.le sections /\ NoDup sections).
Proof.
  intros H.
  destruct (H html_cards_twice ["cards"; "cards"]) as [_ Hnd]; [by vm_compute|].
  apply NoDup_cons in Hnd as [Hnotin _]. apply Hnotin. by left.
Qed.

(** C6, amended. The extracted section identifiers are returned sorted
    ascending, with one entry for every matching container tag whose id is
    not blocked: an id carried by several tags is listed once per tag. *)
Theorem C6_sections_sorted_one_per_tag :
  forall html : string,
    exists sections,
      extract_documentation_sections html = Ok sections /\
      StronglySorted String.le sections /\
      sections ≡ₚ List.filter (fun id => negb (blocked id)) (matched_ids html).
Proof.
  intros html. rewrite sections_spec. eexists. split_and!; [reflexivity| |].
  - apply StronglySorted_merge_sort; apply _.
  - apply merge_sort_Permutation.
Qed.

(** C2. The code keeps a matched name exactly when it has no hyphen or is
    one of the important variants.  The comparison of the base with
    [empty-state] and [profile-card] can never succeed, the base being the
    text before the first hyphen, so no name is kept through the secondary
    list: on the style sheet [.empty-state {] the name [empty-state] is
    matched by the pattern and then dropped. *)
Theorem C2_secondary_list_is_dead :
  (forall css : string,
     exists components,
       extract_semantic_components css = Ok components /\
       forall name, name ∈ components <->
                    name ∈ matched_names css /\
                    (hyphenated name = false \/ name ∈ important_variants)) /\
  matched_names ".empty-state {" = ["empty-state"] /\
  extract_semantic_components ".empty-state {" = Ok [].
Proof.
  split_and!; [|by vm_compute..].
  intros css. destruct (components_spec css) as (components & Hc & Hk).
  exists components. split; [exact Hc|]. intros name. rewrite Hk.
  unfold kept, Py.mem.
  rewrite orb_true_iff, negb_true_iff, bool_decide_eq_true. tauto.
Qed.



(** * Further properties *)

(** ** The engine: what a match consists of *)

Module RunFacts.

Import ReFacts PyFacts TagFacts.

Lemma str_app_assoc u v w : (u +:+ v) +:+ w = u +:+ (v +:+ w).
Proof. induction u as [|x u IH]; [reflexivity|]. by rewrite !str_app_cons, IH. Qed.


Lemma startswith_app p rest : Py.startswith (p +:+ rest) p = true.
Proof.
  induction p as [|c p IH]; [reflexivity|].
  rewrite str_app_cons. cbn. by rewrite Ascii.eqb_refl, IH.
Qed.

Lemma contains_app p a b : Py.contains p (a +:+ (p +:+ b)) = true.
Proof.
  induction a as [|c a IH].
  - rewrite str_app_nil.
    destruct (p +:+ b) eqn:E; cbn [Py.contains];
      by rewrite <- E, startswith_app.
  - rewrite str_app_cons. cbn [Py.contains]. rewrite IH. apply orb_true_r.
Qed.

(** The greedy loop hands over a suffix after a run of the class. *)
Lemma star_sound {R} p s (k : string -> option R) res :
  star p s k = Some res ->
  exists u s', s = u +:+ s' /\ all_chars p u = true /\ k s' = Some res.
Proof.
  revert res. induction s as [|x s IH]; intros res; cbn [star].
  - intros H. by exists "", "".
  - destruct (p x) eqn:Hx.
    + destruct (star p s k) eqn:E.
      * intros [= <-]. destruct (IH _ eq_refl) as (u & s' & -> & Hu & Hk).
        exists (String x u), s'. split_and!; [done| |done]. cbn. by rewrite Hx.
      * intros H. by exists "", (String x s).
    + intros H. by exists "", (String x s).
Qed.

(** Whatever the matcher accepts is a match in the sense of [run]. *)
Lemma rmatch_sound {R} ic r : forall s g (k : string -> option string -> option R) res,
  rmatch ic r s g k = Some res ->
  exists u s' g', s = u +:+ s' /\ run ic r u g g' /\ k s' g' = Some res.
Proof.
  induction r as [|c|p|r1 IH1 r2 IH2|r1 IH1 r2 IH2|p|r1 IH1];
    intros s g k res; cbn [rmatch].
  - intros H. exists "", s, g. split_and!; [done|constructor|done].
  - destruct s as [|x s]; [done|]. destruct (chr_eq ic c x) eqn:E; [|done].
    intros H. exists (String x ""), s, g. split_and!; [done|by constructor|done].
  - destruct s as [|x s]; [done|]. destruct (p x) eqn:E; [|done].
    intros H. exists (String x ""), s, g. split_and!; [done|by constructor|done].
  - intros H. apply IH1 in H as (u & s1 & g1 & -> & Hu & H).
    apply IH2 in H as (v & s2 & g2 & -> & Hv & H).
    exists (u +:+ v), s2, g2. split_and!; [by rewrite str_app_assoc|by econstructor|done].
  - destruct (rmatch ic r1 s g k) eqn:E.
    + intros [= <-]. apply IH1 in E as (u & s1 & g1 & -> & Hu & H).
      exists u, s1, g1. split_and!; [done|by apply run_alt_l|done].
    + intros H. apply IH2 in H as (u & s1 & g1 & -> & Hu & H).
      exists u, s1, g1. split_and!; [done|by apply run_alt_r|done].
  - intros H. apply star_sound in H as (u & s' & -> & Hu & H).
    exists u, s', g. split_and!; [done|by constructor|done].
  - intros H. apply IH1 in H as (u & s1 & g1 & -> & Hu & H). cbn in H.
    rewrite consumed_app in H.
    exists u, s1, (Some u). split_and!; [done|by econstructor|done].
Qed.

Lemma search_sound ic r s :
  Lint.search ic r s = true ->
  exists a t m, s = a +:+ t /\ match_at ic r t = Some m.
Proof.
  induction s as [|c s IH]; cbn [Lint.search].
  - destruct (match_at ic r "") as [m|] eqn:E; [|done].
    intros _. by exists "", "", m.
  - destruct (match_at ic r (String c s)) as [m|] eqn:E.
    + intros _. by exists "", (String c s), m.
    + intros (a & t & m & -> & Hm)%IH. by exists (String c a), t, m.
Qed.

(** Inversions of [run] on the shapes the patterns are built from. *)
Lemma run_seq_inv ic r1 r2 u g g'' :
  run ic (Seq r1 r2) u g g'' ->
  exists u1 u2 g', u = u1 +:+ u2 /\ run ic r1 u1 g g' /\ run ic r2 u2 g' g''.
Proof. inversion 1; subst. eauto 10. Qed.

Lemma run_group_inv ic r u g g' :
  run ic (Group r) u g g' -> g' = Some u /\ exists g1, run ic r u g g1.
Proof. inversion 1; subst. eauto. Qed.

Lemma run_star_inv ic p u g g' :
  run ic (Star p) u g g' -> all_chars p u = true /\ g' = g.
Proof. inversion 1; subst. eauto. Qed.

Lemma run_chr_inv ic c u g g' :
  run ic (Chr c) u g g' -> exists x, u = String x "" /\ chr_eq ic c x = true /\ g' = g.
Proof. inversion 1; subst. eauto. Qed.

Lemma run_cls_inv ic (p : ascii -> bool) u g g' :
  run ic (Cls p) u g g' -> exists x, u = String x "" /\ p x = true /\ g' = g.
Proof. inversion 1; subst. eauto. Qed.

Lemma run_lit_exact p : forall u g g',
  run false (lit p) u g g' -> u = p /\ g' = g.
Proof.
  induction p as [|c p IH]; intros u g g' H.
  - inversion H; subst. done.
  - destruct p as [|c' p].
    + cbn in H. inversion H as [|? x ? Hc| | | | | |]; subst.
      unfold chr_eq in Hc. apply Ascii.eqb_eq in Hc as ->. done.
    + change (lit (String c (String c' p))) with (Seq (Chr c) (lit (String c' p))) in H.
      inversion H as [| | |? ? u1 u2 ? g1 ? H1 H2| | | |]; subst.
      inversion H1 as [|? x ? Hc| | | | | |]; subst.
      unfold chr_eq in Hc. apply Ascii.eqb_eq in Hc as ->.
      apply IH in H2 as [-> ->]. done.
Qed.


End RunFacts.

(** ** The shape and the order of what is extracted *)

Module ShapeFacts.

Import ReFacts PyFacts Extraction TagFacts RunFacts.




(** The component list is the sorted list of a set. *)
Lemma components_form css :
  exists filtered,
    extract_semantic_components css = Ok (Py.sorted (Py.list_of_set filtered)).
Proof.
  unfold extract_semantic_components.
  destruct (collect_loop (finditer false component_pattern css))
    as (cs & -> & Hs & _).
  { intros m. by apply finditer_group. }
  rewrite result_bind_ok.
  destruct (filter_loop cs Hs) as (filtered & -> & _).
  rewrite result_bind_ok. by exists filtered.
Qed.

Lemma sorted_set_strict l :
  StronglySorted String.le (Py.sorted (Py.list_of_set l)) /\
  NoDup (Py.sorted (Py.list_of_set l)).
Proof.
  unfold Py.sorted, Py.list_of_set. split.
  - apply StronglySorted_merge_sort; apply _.
  - rewrite merge_sort_Permutation. apply NoDup_elements.
Qed.

(** Two sorted lists with the same elements, counted, are one list. *)
Lemma sorted_lists_equal (l1 l2 : list string) :
  StronglySorted String.le l1 -> StronglySorted String.le l2 ->
  l1 ≡ₚ l2 -> l1 = l2.
Proof. intros H1 H2 Hp. by eapply (StronglySorted_unique String.le). Qed.

Lemma components_ext css css' :
  (forall name, name ∈ matched_names css <-> name ∈ matched_names css') ->
  extract_semantic_components css = extract_semantic_components css'.
Proof.
  intros Hset.
  destruct (components_form css) as (f & Hf).
  destruct (components_form css') as (f' & Hf').
  destruct (components_spec css) as (c & Hc & Hk).
  destruct (components_spec css') as (c' & Hc' & Hk').
  rewrite Hc, Hc'. f_equal.
  assert (c = Py.sorted (Py.list_of_set f)) as Ec by congruence.
  assert (c' = Py.sorted (Py.list_of_set f')) as Ec' by congruence.
  apply sorted_lists_equal.
  - rewrite Ec. apply sorted_set_strict.
  - rewrite Ec'. apply sorted_set_strict.
  - apply NoDup_Permutation.
    + rewrite Ec. apply sorted_set_strict.
    + rewrite Ec'. apply sorted_set_strict.
    + intros name. rewrite Hk, Hk', Hset. done.
Qed.

(** What the section pattern captures: a non-empty text without quotes. *)
Lemma section_match_shape s m :
  match_at true section_pattern s = Some m ->
  exists id, group1 m = Some id /\ id <> "" /\
             all_chars Chars.not_quote id = true.
Proof.
  unfold match_at. intros H.
  apply rmatch_sound in H as (u & s' & g' & -> & Hrun & [= <-]).
  unfold section_pattern in Hrun.
  apply run_seq_inv in Hrun as (? & ? & ? & -> & _ & Hrun).
  apply run_seq_inv in Hrun as (? & ? & ? & -> & _ & Hrun).
  apply run_seq_inv in Hrun as (? & ? & ? & -> & _ & Hrun).
  apply run_seq_inv in Hrun as (? & ? & ? & -> & _ & Hrun).
  apply run_seq_inv in Hrun as (? & ? & ? & -> & _ & Hrun).
  apply run_seq_inv in Hrun as (id & ? & g1 & -> & Hgrp & Hrun).
  apply run_group_inv in Hgrp as [-> (g2 & Hid)].
  apply run_seq_inv in Hrun as (? & ? & ? & -> & Hq & Hrun).
  apply run_cls_inv in Hq as (? & -> & _ & ->).
  apply run_seq_inv in Hrun as (? & ? & ? & -> & Hst & Hgt).
  apply run_star_inv in Hst as [_ ->].
  apply run_chr_inv in Hgt as (? & -> & _ & ->).
  exists id. split; [done|].
  unfold Plus in Hid.
  apply run_seq_inv in Hid as (? & rest & ? & -> & Hx & Hrest).
  apply run_cls_inv in Hx as (first & -> & Hfirst & ->).
  apply run_star_inv in Hrest as [Hrest _].
  split; [done|]. rewrite str_app_cons, str_app_nil. cbn. by rewrite Hfirst, Hrest.
Qed.

Lemma matched_ids_shape html id :
  id ∈ matched_ids html ->
  id <> "" /\ all_chars Chars.not_quote id = true.
Proof.
  unfold matched_ids, finditer. generalize 0.
  induction html as [|x html IH]; intros skip; cbn [finditer_from].
  - by intros ?%elem_of_nil.
  - destruct skip as [|n]; [|by apply IH].
    destruct (match_at true section_pattern (String x html)) as [m|] eqn:E;
      [|by apply IH].
    cbn [omap list_omap].
    destruct (section_match_shape _ _ E) as (id' & Hg & Hne & Hq).
    rewrite Hg. intros [->|Hin]%elem_of_cons; [done|by eapply IH].
Qed.

Lemma filter_perm {A : Type} (f : A -> bool) (l l' : list A) :
  l ≡ₚ l' -> List.filter f l ≡ₚ List.filter f l'.
Proof.
  induction 1 as [|x l l' Hp IH|x y l|l l' l'' _ IH1 _ IH2]; cbn [List.filter].
  - done.
  - destruct (f x); [by apply perm_skip|done].
  - destruct (f x), (f y); try done. apply perm_swap.
  - by etrans.
Qed.

Lemma sections_perm html html' :
  matched_ids html ≡ₚ matched_ids html' ->
  extract_documentation_sections html = extract_documentation_sections html'.
Proof.
  intros Hp. rewrite !sections_spec. f_equal.
  unfold Py.sorted. apply sorted_lists_equal.
  - apply StronglySorted_merge_sort; apply _.
  - apply StronglySorted_merge_sort; apply _.
  - rewrite !merge_sort_Permutation. by apply filter_perm.
Qed.

(** *** One rule head *)

Lemma alts_prefix {R} prefix t g (k : string -> option string -> option R) :
  prefix ∈ component_prefixes ->
  rmatch false (alts (lit "btn") (lit <$> tail component_prefixes))
         (prefix +:+ t) g k = k t g.
Proof.
  unfold component_prefixes. intros H.
  repeat (apply elem_of_cons in H as [->|H];
          [rewrite !str_app_cons, str_app_nil; cbn; by destruct (k t g)|]).
  by apply elem_of_nil in H.
Qed.

Lemma word_not_space x :
  Chars.is_word_or_hyphen x = true ->
  Chars.is_space x = false /\ Ascii.eqb "{" x = false.
Proof.
  destruct x as [[] [] [] [] [] [] [] []]; vm_compute; intuition congruence.
Qed.

Lemma space_not_word x :
  Chars.is_space x = true ->
  Chars.is_word_or_hyphen x = false /\ Ascii.eqb "{" x = false.
Proof.
  destruct x as [[] [] [] [] [] [] [] []]; vm_compute; intuition congruence.
Qed.

(** The pattern matches a rule head [.name ws {] and captures [name]. *)
Lemma match_rule prefix rest ws after :
  prefix ∈ component_prefixes ->
  all_chars Chars.is_word_or_hyphen rest = true ->
  all_chars Chars.is_space ws = true ->
  exists n,
    match_at false component_pattern
      (String "." ((prefix +:+ rest) +:+ ws +:+ String "{" after)) =
    Some (MatchObj (Some (prefix +:+ rest)) n).
Proof.
  intros Hp Hrest Hws. unfold match_at, component_pattern.
  cbn [rmatch]. change (chr_eq false "." ".") with true. cbv iota.
  rewrite str_app_assoc, alts_prefix by exact Hp.
  set (w := ws +:+ String "{" after).
  assert (star Chars.is_space w
            (fun s' => rmatch false (Chr "{") s' (Some (consumed (prefix +:+ rest +:+ w) w))
               (fun s'' g => Some (MatchObj g
                  (String.length (String "." (prefix +:+ rest +:+ w)) - String.length s''))))
          = Some (MatchObj (Some (prefix +:+ rest))
                  (String.length (String "." (prefix +:+ rest +:+ w)) - String.length after)))
    as Hspaces.
  { unfold w at 1. rewrite star_over.
    - cbn [rmatch]. change (chr_eq false "{" "{") with true. cbv iota.
      by rewrite <- str_app_assoc, consumed_app.
    - exact Hws.
    - intros x s Hx. cbn [rmatch]. unfold chr_eq.
      by rewrite (proj2 (space_not_word _ Hx)).
    - reflexivity. }
  rewrite star_over.
  - eexists. exact Hspaces.
  - exact Hrest.
  - intros x s Hx. destruct (word_not_space _ Hx) as [Hsp Hbr].
    cbn [star]. rewrite Hsp. unfold chr_eq. by rewrite Hbr.
  - unfold w. destruct ws as [|x ws]; [reflexivity|].
    cbn in Hws. apply andb_true_iff in Hws as [Hx _].
    rewrite str_app_cons. cbn [star].
    by rewrite (proj1 (space_not_word _ Hx)).
Qed.

Lemma no_match_without_dot x s :
  Ascii.eqb x "." = false -> match_at false component_pattern (String x s) = None.
Proof.
  intros H. unfold match_at, component_pattern. cbn [rmatch]. unfold chr_eq.
  by rewrite Ascii.eqb_sym, H.
Qed.

Lemma finditer_skip_css before s :
  all_chars (fun c => negb (Ascii.eqb c ".")) before = true ->
  finditer false component_pattern (before +:+ s) =
  finditer false component_pattern s.
Proof.
  unfold finditer. induction before as [|x before IH]; [reflexivity|].
  cbn [all_chars]. intros [Hx Hb%IH]%andb_true_iff.
  apply negb_true_iff in Hx.
  rewrite str_app_cons. cbn [finditer_from].
  by rewrite no_match_without_dot.
Qed.

End ShapeFacts.

(** ** Pairing and reporting *)

Module ReportFacts.

Import PyFacts Extraction Pairing Audit DriverFacts.

Lemma first_present_ext sections sections' potential :
  (forall s, s ∈ sections <-> s ∈ sections') ->
  first_present sections potential = first_present sections' potential.
Proof.
  intros H. unfold first_present.
  induction potential as [|p rest IH]; [reflexivity|]. cbn.
  by rewrite (bool_decide_ext _ _ (H p)), IH.
Qed.

Lemma first_matching_reverse component sections potential m :
  section_to_component (first_matching component sections potential m) =
  match first_present sections potential with
  | Some p => <[p := component]> (section_to_component m)
  | None => section_to_component m
  end.
Proof.
  unfold first_present.
  induction potential as [|p rest IH]; cbn; [reflexivity|].
  unfold Py.mem. by destruct (bool_decide (p ∈ sections)).
Qed.

Lemma StronglySorted_sublist {A} (R : relation A) (l1 l2 : list A) :
  l1 `sublist_of` l2 -> StronglySorted R l2 -> StronglySorted R l1.
Proof.
  induction 1 as [|x l1 l2 Hsub IH|x l1 l2 Hsub IH]; intros Hs.
  - constructor.
  - apply StronglySorted_inv in Hs as [Hs Hall]. constructor; [by apply IH|].
    apply Forall_forall. intros y Hy. rewrite Forall_forall in Hall.
    apply Hall. by eapply elem_of_sublist.
  - apply StronglySorted_inv in Hs as [Hs _]. by apply IH.
Qed.

Lemma length_filter_split {A} (P : A -> Prop) `{!forall x, Decision (P x)} (l : list A) :
  length l = length (filter P l) + length (filter (fun x => ~ P x) l).
Proof.
  induction l as [|x l IH]; [reflexivity|].
  rewrite !filter_cons. destruct (decide (P x)), (decide (~ P x)); cbn; try lia; tauto.
Qed.

Lemma printed_elem {A} (run : io A) line :
  EvPrint line ∈ trace run -> line ∈ printed run.
Proof.
  intros H. unfold printed. apply list_elem_of_omap. by exists (EvPrint line).
Qed.

(** Finds an element of a list written with [::], [++] and [<$>]. *)
Ltac seek :=
  solve [ apply list_elem_of_here
        | apply list_elem_of_further; seek
        | apply elem_of_app; left; seek
        | apply elem_of_app; right; seek
        | apply list_elem_of_fmap; eexists; split; [reflexivity|eassumption] ].

End ReportFacts.

(** ** The linter's helpers *)

Module LintFacts.

Import PyFacts Lint.

Lemma if_same {A : Type} (b : bool) (x : A) : (if b then x else x) = x.
Proof. by destruct b. Qed.

Lemma split_first sep s :
  Py.index (Py.split sep s) 0 = Ok (before_char sep s).
Proof.
  unfold Py.index.
  induction s as [|c s IH]; cbn; [reflexivity|].
  destruct (Ascii.eqb c sep); [reflexivity|].
  destruct (split_cons sep s) as (w & ws & E). rewrite E in IH |- *.
  cbn in IH |- *. by injection IH as ->.
Qed.

Lemma before_char_free sep s : free_of sep (before_char sep s) = true.
Proof.
  unfold free_of. induction s as [|c s IH]; [reflexivity|]. cbn.
  destruct (Ascii.eqb c sep) eqn:E; [reflexivity|]. cbn. by rewrite E, IH.
Qed.

Lemma contains_char c s :
  Py.contains (String c "") s = negb (free_of c s).
Proof.
  unfold free_of. induction s as [|x s IH]; [reflexivity|].
  cbn [Py.contains Py.startswith all_chars]. rewrite IH, (Ascii.eqb_sym c x).
  destruct (Ascii.eqb x c); cbn; [reflexivity|]. by destruct (all_chars _ s).
Qed.

Lemma lstrip_all p s : all_chars p s = true -> all_chars p (lstrip s) = true.
Proof.
  induction s as [|c s IH]; [done|]. cbn [lstrip].
  destruct (Chars.is_space c); [|done].
  cbn. intros [_ H]%andb_true_iff. by apply IH.
Qed.

Lemma rev_app_all p s acc :
  all_chars p (String.rev_app s acc) = all_chars p s && all_chars p acc.
Proof.
  revert acc. induction s as [|c s IH]; intros acc; [reflexivity|].
  cbn. rewrite IH. cbn. by destruct (p c), (all_chars p s), (all_chars p acc).
Qed.

Lemma rev_all p s : all_chars p (String.rev s) = all_chars p s.
Proof. unfold String.rev. rewrite rev_app_all. cbn. apply andb_true_r. Qed.

(** Stripping removes characters and adds none. *)
Lemma strip_all p s : all_chars p s = true -> all_chars p (strip s) = true.
Proof.
  intros H. unfold strip, rstrip. rewrite rev_all. apply lstrip_all.
  rewrite rev_all. by apply lstrip_all.
Qed.

Lemma scan_up_total lines n :
  n <= length lines ->
  exists selector,
    scan_up lines n = Ok selector /\ Py.contains "{" selector = false.
Proof.
  induction n as [|n IH]; intros Hn.
  - by exists "Unknown selector".
  - cbn [scan_up].
    destruct (lookup_lt_is_Some_2 lines n) as [raw Hraw]; [lia|].
    assert (Py.index lines n = Ok raw) as -> by (unfold Py.index; by rewrite Hraw).
    rewrite result_bind_ok. cbv zeta.
    destruct (Py.contains "{" (strip raw)); [|rewrite if_same; apply IH; lia].
    rewrite split_first, result_bind_ok. eexists. split; [reflexivity|].
    rewrite contains_char. apply negb_false_iff.
    apply strip_all, before_char_free.
Qed.

Lemma scan_up_nearest lines k raw : forall n,
  k < n -> n <= length lines ->
  lines !! k = Some raw ->
  Py.contains "{" (strip raw) = true ->
  (forall j raw', k < j < n -> lines !! j = Some raw' ->
                  Py.contains "{" (strip raw') = false) ->
  scan_up lines n = Ok (strip (before_char "{" (strip raw))).
Proof.
  induction n as [|n IH]; intros Hk Hn Hraw Hbrace Hnone; [lia|].
  cbn [scan_up].
  destruct (lookup_lt_is_Some_2 lines n) as [raw' Hraw']; [lia|].
  assert (Py.index lines n = Ok raw') as -> by (unfold Py.index; by rewrite Hraw').
  rewrite result_bind_ok. cbv zeta.
  destruct (decide (k = n)) as [->|Hne].
  - assert (raw' = raw) as -> by congruence.
    by rewrite Hbrace, split_first, result_bind_ok.
  - rewrite (Hnone n raw') by (done || lia). rewrite if_same.
    apply IH; [lia|lia|done|done|].
    intros j r Hj. apply Hnone. lia.
Qed.

End LintFacts.

(** ** The checker's verdict *)

Module ValidateFacts.

Import PyFacts DriverFacts Lint Validate.

Lemma count_brace_cons c s :
  count "{" (String c s) = (if Ascii.eqb "{" c then 1 else 0) + count "{" s.
Proof.
  unfold count. cbn [count_from Py.startswith String.length Nat.pred].
  destruct (Ascii.eqb "{" c); reflexivity.
Qed.

Lemma double_brace_count s :
  Py.contains "{{" s = true -> (1 <? count "{" s) = true.
Proof.
  intros H. apply Nat.ltb_lt. induction s as [|c s IH]; [discriminate|].
  rewrite count_brace_cons. cbn [Py.contains Py.startswith] in H.
  apply orb_true_iff in H as [H|H].
  - apply andb_true_iff in H as [-> H].
    destruct s as [|c' s]; [discriminate|].
    apply andb_true_iff in H as [H _].
    rewrite count_brace_cons, H. lia.
  - specialize (IH H). lia.
Qed.

Lemma io_bind_assoc {A B C} (m : io A) (f : A -> io B) (k : B -> io C) :
  (m ≫= f) ≫= k = m ≫= (fun v => f v ≫= k).
Proof.
  unfold mbind, io_bind. destruct m as [t [e|v]]; cbn; [reflexivity|].
  destruct (f v) as [t' [e|v']]; cbn; [reflexivity|].
  destruct (k v') as [t'' o]. by rewrite app_assoc.
Qed.

Lemma if_app {A} (b : bool) (l : list A) (x : A) :
  (if b then l ++ [x] else l) = l ++ (if b then [x] else []).
Proof. destruct b; [reflexivity|]. by rewrite app_nil_r. Qed.

(** *** The outcome of a run that only prints *)






(** *** The last lines of a run *)

Lemma ends_print {A} t line (k : unit -> io A) :
  ends_with t (k tt) -> ends_with t (print line ≫= k).
Proof.
  intros [b H]. exists (EvPrint line :: b).
  unfold mbind, io_bind, print. cbn. destruct (k tt) as [t' o]. cbn in *. by rewrite H.
Qed.

Lemma ends_ret {A B} t (v : A) (k : A -> io B) :
  ends_with t (k v) -> ends_with t (mret v ≫= k).
Proof.
  intros [b H]. exists b.
  unfold mbind, mret, io_bind, io_ret. cbn. destruct (k v) as [t' o]. cbn in *. done.
Qed.

Lemma summary_trace issues :
  ends_with (EvPrint <$> (nl +:+ rule) :: summary issues)
    (print (nl +:+ rule) ;;
     (if negb (is_empty issues) then
        print "❌ ISSUES FOUND:" ;;
        for_io issues (fun issue => print ("  " +:+ issue))
      else print "✅ No major issues detected!") ;;
     mret (length issues =? 0)).
Proof.
  exists []. unfold summary. destruct issues as [|issue rest]; [reflexivity|].
  cbn [is_empty negb]. rewrite for_io_print. cbn.
  by rewrite app_nil_r, <- list_fmap_compose.
Qed.

(** Follows a run up to the separator line of the summary. *)
Ltac to_summary :=
  repeat first
    [ match goal with
      | |- ends_with _ (print (nl +:+ rule) ≫= _) =>
          cbv iota;
          rewrite ?if_app, ?app_nil_l, ?app_nil_r, <- ?app_assoc;
          apply summary_trace
      end
    | apply ends_print
    | apply ends_ret
    | rewrite io_bind_assoc
    | progress cbv beta zeta
    | match goal with
      | |- ends_with _ ((if ?b then _ else _) ≫= _) => destruct b
      end ].

Lemma validate_trace css_content :
  ends_with (EvPrint <$> (nl +:+ rule) :: summary (all_issues css_content))
    (validate_content css_content).
Proof. unfold validate_content, all_issues. cbv zeta. to_summary. Qed.

Lemma omap_prints (lines : list string) :
  omap (fun e => match e with EvPrint line => Some line | _ => None end)
       (EvPrint <$> lines) = lines.
Proof.
  induction lines as [|l lines IH]; [reflexivity|].
  rewrite fmap_cons. cbn [omap list_omap]. by rewrite IH.
Qed.

Lemma printed_lines {A} (m : io A) before (lines : list string) :
  trace m = before ++ (EvPrint <$> lines) ->
  exists earlier, printed m = earlier ++ lines.
Proof.
  intros H. unfold printed. rewrite H, omap_app, omap_prints. by eexists.
Qed.




End ValidateFacts.

(** * Further statements about the three scripts *)

Import RunFacts ShapeFacts ReportFacts LintFacts ValidateFacts.
Import Lint Validate.

(** ** Extraction *)

(** X1. For every style sheet the component extraction returns, and the
    list it returns is sorted ascending and holds no name twice. *)
Theorem X1_components_sorted_without_duplicates :
  forall css : string,
    exists components,
      extract_semantic_components css = Ok components /\
      StronglySorted String.le components /\ NoDup components.
Proof.
  intros css. destruct (components_form css) as (filtered & ->).
  eexists. split; [reflexivity|]. apply sorted_set_strict.
Qed.



(** X3. The component list depends on the style sheet only through the
    set of names the pattern matches: two style sheets that match the
    same names, in any order and any number of times, give the same
    list. *)
Theorem X3_components_depend_on_matched_set :
  forall css css' : string,
    (forall name, name ∈ matched_names css <-> name ∈ matched_names css') ->
    extract_semantic_components css = extract_semantic_components css'.
Proof. intros css css' Hset. by apply components_ext. Qed.

Lemma X3_components_depend_on_matched_set_witness :
  extract_semantic_components (".card {} .btn {}") =
  extract_semantic_components (".btn {} .card {} .btn{}").
Proof.
  apply X3_components_depend_on_matched_set. intros name.
  assert (matched_names ".card {} .btn {}" = ["card"; "btn"]) as -> by (by vm_compute).
  assert (matched_names ".btn {} .card {} .btn{}" = ["btn"; "card"; "btn"]) as ->
    by (by vm_compute).
  rewrite !elem_of_cons, !elem_of_nil. tauto.
Defined.

(** X4. The first rule of a style sheet is extracted: when no dot comes
    before it, its class name is a listed prefix followed by word
    characters and hyphens, only white space separates the name from the
    opening brace, and the name has no hyphen or is an allowed variant,
    then the name is in the component list. *)
Theorem X4_first_rule_is_extracted :
  forall (before prefix rest ws after : string),
    all_chars (fun c => negb (Ascii.eqb c ".")) before = true ->
    prefix ∈ component_prefixes ->
    all_chars Chars.is_word_or_hyphen rest = true ->
    all_chars Chars.is_space ws = true ->
    (hyphenated (prefix +:+ rest) = false \/
     (prefix +:+ rest) ∈ important_variants) ->
    exists components,
      extract_semantic_components (css_rule before (prefix +:+ rest) ws after)
      = Ok components /\
      (prefix +:+ rest) ∈ components.
Proof.
  intros before prefix rest ws after Hb Hp Hrest Hws Hkept.
  destruct (components_spec (css_rule before (prefix +:+ rest) ws after))
    as (components & Hc & Hk).
  exists components. split; [exact Hc|]. apply Hk. split.
  - unfold matched_names, css_rule. rewrite finditer_skip_css by exact Hb.
    unfold finditer. cbn [finditer_from].
    destruct (match_rule prefix rest ws after Hp Hrest Hws) as (n & ->).
    cbn [omap list_omap group1]. by left.
  - unfold kept, Py.mem. apply orb_true_iff.
    destruct Hkept as [->|Hin]; [by left|right].
    by apply bool_decide_eq_true.
Qed.

Lemma X4_first_rule_is_extracted_witness :
  exists components,
    extract_semantic_components
      (css_rule "/* buttons */ " ("btn" +:+ "-primary") " " " color: red; }")
    = Ok components /\
    ("btn" +:+ "-primary") ∈ components.
Proof.
  apply X4_first_rule_is_extracted;
    [reflexivity | by_evaluation | reflexivity | reflexivity
    | right; by_evaluation].
Defined.

(** X5. Every extracted section identifier is non-empty, holds no quote
    character, and contains none of the skipped markers. *)
Theorem X5_section_ids_shape :
  forall (html : string) (sections : list string) (id : string),
    extract_documentation_sections html = Ok sections ->
    id ∈ sections ->
    id <> "" /\ all_chars Chars.not_quote id = true /\
    forall marker, marker ∈ skipped_markers -> Py.contains marker id = false.
Proof.
  intros html sections id Hs Hin. rewrite sections_spec in Hs.
  injection Hs as <-. rewrite sorted_elem in Hin.
  apply list_elem_of_In, List.filter_In in Hin as [Hin%list_elem_of_In Hb].
  apply negb_true_iff in Hb.
  destruct (matched_ids_shape _ _ Hin) as [Hne Hq]. split_and!; [done..|].
  intros marker Hm. unfold blocked, Py.any in Hb.
  destruct (Py.contains marker id) eqn:E; [|done].
  assert (existsb (fun skip => Py.contains skip id) skipped_markers = true) as Hex.
  { apply existsb_exists. exists marker. split; [by apply list_elem_of_In|done]. }
  congruence.
Qed.

Lemma X5_section_ids_shape_witness :
  "buttons" <> "" /\ all_chars Chars.not_quote "buttons" = true /\
  forall marker, marker ∈ skipped_markers -> Py.contains marker "buttons" = false.
Proof.
  apply (X5_section_ids_shape html_buttons ["buttons"]);
    [by vm_compute | by_evaluation].
Defined.

(** X6. The section list depends on the document only through the
    identifiers the pattern matches, counted: two documents whose matched
    identifiers are a rearrangement of one another give the same list. *)
Theorem X6_sections_depend_on_matched_ids :
  forall html html' : string,
    matched_ids html ≡ₚ matched_ids html' ->
    extract_documentation_sections html = extract_documentation_sections html'.
Proof. intros html html' Hp. by apply sections_perm. Qed.

Lemma X6_sections_depend_on_matched_ids_witness :
  extract_documentation_sections
    (open_tag "div" "id" "cards" +:+ open_tag "div" "id" "buttons") =
  extract_documentation_sections
    (open_tag "div" "id" "buttons" +:+ open_tag "div" "id" "cards").
Proof.
  apply X6_sections_depend_on_matched_ids.
  assert (matched_ids (open_tag "div" "id" "cards" +:+ open_tag "div" "id" "buttons")
          = ["cards"; "buttons"]) as -> by (by vm_compute).
  assert (matched_ids (open_tag "div" "id" "buttons" +:+ open_tag "div" "id" "cards")
          = ["buttons"; "cards"]) as -> by (by vm_compute).
  constructor.
Defined.

(** ** Pairing *)

(** X7. The component-to-section dictionary depends on the two argument
    lists only through which names they contain: order and repetition in
    either list do not change it. *)
Theorem X7_mapping_depends_on_membership :
  forall components components' sections sections' : list string,
    (forall c, c ∈ components <-> c ∈ components') ->
    (forall s, s ∈ sections <-> s ∈ sections') ->
    exists m m',
      create_semantic_mapping components sections = Ok m /\
      create_semantic_mapping components' sections' = Ok m' /\
      component_to_section m = component_to_section m'.
Proof.
  intros components components' sections sections' Hc Hs.
  destruct (mapping_spec components sections) as (m & Hm & Hl).
  destruct (mapping_spec components' sections') as (m' & Hm' & Hl').
  exists m, m'. split_and!; [done..|].
  apply map_eq. intros c.
  by rewrite Hl, Hl', (bool_decide_ext _ _ (Hc c)), (first_present_ext _ _ _ Hs).
Qed.

Lemma X7_mapping_depends_on_membership_witness :
  exists m m',
    create_semantic_mapping ["btn"; "card"] ["cards"; "buttons"] = Ok m /\
    create_semantic_mapping ["card"; "btn"; "card"] ["buttons"; "cards"; "cards"] = Ok m' /\
    component_to_section m = component_to_section m'.
Proof.
  apply X7_mapping_depends_on_membership; intros x;
    rewrite !elem_of_cons, !elem_of_nil; tauto.
Defined.

(** X8. The two dictionaries of a mapping agree: the component the
    reverse dictionary names for a section is mapped to that section, and
    every section some component is mapped to has an entry in the reverse
    dictionary. *)
Theorem X8_reverse_dictionary_agrees :
  forall components sections : list string,
    exists m,
      create_semantic_mapping components sections = Ok m /\
      (forall s c, section_to_component m !! s = Some c ->
                   component_to_section m !! c = Some s) /\
      (forall c s, component_to_section m !! c = Some s ->
                   is_Some (section_to_component m !! s)).
Proof.
  intros components sections. unfold create_semantic_mapping.
  destruct (for_each_inv
    (fun done m =>
       (forall c s, component_to_section m !! c = Some s ->
                    first_present sections (candidates c) = Some s) /\
       (forall s c, section_to_component m !! s = Some c ->
                    component_to_section m !! c = Some s) /\
       (forall c s, component_to_section m !! c = Some s ->
                    is_Some (section_to_component m !! s)))
    (mapping_step sections) components [] (Mapping ∅ ∅))
    as (m & Hf & _ & H2 & H3).
  - split_and!; intros ? ?; cbn; by rewrite lookup_empty.
  - intros done x m (H1 & H2 & H3) _. unfold mapping_step.
    rewrite potential_sections_candidates, result_bind_ok.
    eexists; split; [reflexivity|].
    rewrite first_matching_map, first_matching_reverse.
    destruct (first_present sections (candidates x)) as [p|] eqn:E; [|done].
    split_and!.
    + intros c s. destruct (decide (x = c)) as [<-|Hne].
      * rewrite lookup_insert_eq. congruence.
      * rewrite lookup_insert_ne by done. apply H1.
    + intros s c. destruct (decide (p = s)) as [<-|Hne].
      * rewrite lookup_insert_eq. intros [= <-]. by rewrite lookup_insert_eq.
      * rewrite lookup_insert_ne by done. intros Hs.
        destruct (decide (x = c)) as [<-|Hxc].
        -- pose proof (H1 _ _ (H2 _ _ Hs)) as Hfp. congruence.
        -- rewrite lookup_insert_ne by done. by apply H2.
    + intros c s. destruct (decide (x = c)) as [<-|Hne].
      * rewrite lookup_insert_eq. intros [= <-]. rewrite lookup_insert_eq. by eexists.
      * rewrite lookup_insert_ne by done. intros Hc.
        destruct (decide (p = s)) as [<-|Hps].
        -- rewrite lookup_insert_eq. by eexists.
        -- rewrite lookup_insert_ne by done. by eapply H3.
  - exists m. done.
Qed.

(** ** The audit and its report *)

(** X9. Both reported lists are sorted sub-lists of the extracted lists,
    no component is reported twice, the section count is the length of the
    section list, and the component count is the number of undocumented
    components plus the number of mapped ones. *)
Theorem X9_report_accounting :
  forall css html : string,
    exists components sections m r,
      extract_semantic_components css = Ok components /\
      extract_documentation_sections html = Ok sections /\
      create_semantic_mapping components sections = Ok m /\
      audit_contents css html = Ok r /\
      undocumented r `sublist_of` components /\
      stale_sections r `sublist_of` sections /\
      StronglySorted String.le (undocumented r) /\
      StronglySorted String.le (stale_sections r) /\
      NoDup (undocumented r) /\
      component_count r = length (undocumented r) + size (component_to_section m) /\
      section_count r = length sections.
Proof.
  intros css html.
  destruct (audit_spec css html) as (components & sections & m & Hc & Hs & Hm & Ha).
  assert (StronglySorted String.le components /\ NoDup components)
    as [Hsorted Hnd].
  { destruct (components_form css) as (f & Hf).
    assert (components = Py.sorted (Py.list_of_set f)) as -> by congruence.
    apply sorted_set_strict. }
  assert (StronglySorted String.le sections) as Hss.
  { rewrite sections_spec in Hs. injection Hs as <-.
    apply StronglySorted_merge_sort; apply _. }
  exists components, sections, m. eexists.
  split_and!; [done..| | | | | | |reflexivity]; cbn.
  - apply sublist_filter.
  - etrans; apply sublist_filter.
  - eapply StronglySorted_sublist; [apply sublist_filter|done].
  - eapply StronglySorted_sublist; [|exact Hss]. etrans; apply sublist_filter.
  - by apply NoDup_filter.
  - destruct (mapping_spec components sections) as (m' & Hm' & Hlook).
    assert (m' = m) as -> by congruence.
    rewrite (length_filter_split (fun c => component_to_section m !! c = None)).
    f_equal.
    rewrite <- (size_dom (D:=gset string)),
      <- (size_list_to_set (C:=gset string)) by by apply NoDup_filter.
    f_equal. apply set_eq. intros c.
    rewrite elem_of_list_to_set, list_elem_of_filter, elem_of_dom, Hlook.
    case_bool_decide as Hin.
    + rewrite not_eq_None_Some. split; [by intros [? _]|by intros ?].
    + split; [by intros [? ?]|by intros [? ?]].
Qed.



(** X11. How [audit_documentation] reads its two files: when the style
    sheet cannot be read it prints one error line and leaves with status 1
    without opening the document; when only the document cannot be read it
    opens both, prints one error line and leaves with status 1; when both
    can be read it opens both, prints nothing, and its outcome is the audit
    of the two contents. *)
Theorem X11_audit_documentation_reads :
  forall (fs : string -> file) (css html : string),
    (~ readable (fs css) ->
       exists e,
         audit_documentation fs css html =
         IO [EvOpen css; EvPrint ("❌ Error reading CSS file: " +:+ e)]
            (Raise (SystemExit 1))) /\
    (readable (fs css) -> ~ readable (fs html) ->
       exists e,
         audit_documentation fs css html =
         IO [EvOpen css; EvOpen html; EvPrint ("❌ Error reading HTML file: " +:+ e)]
            (Raise (SystemExit 1))) /\
    (forall c h, fs css = Readable c -> fs html = Readable h ->
       audit_documentation fs css html =
       IO [EvOpen css; EvOpen html] (audit_contents c h)).
Proof.
  intros fs css html. unfold audit_documentation, try_read, readable.
  split_and!.
  - intros Hn. cbn. destruct (fs css) as [|r|c]; [by eexists..|].
    exfalso. apply Hn. by eexists.
  - intros [c Hc] Hn. cbn. rewrite Hc. cbn.
    destruct (fs html) as [|r|h]; [by eexists..|].
    exfalso. apply Hn. by eexists.
  - intros c h Hc Hh. cbn. rewrite Hc. cbn. rewrite Hh. cbn.
    by destruct (audit_contents c h).
Qed.

Lemma X11_audit_documentation_reads_witness :
  (exists e,
     audit_documentation fs_buttons "missing.css" "index.html" =
     IO [EvOpen "missing.css"; EvPrint ("❌ Error reading CSS file: " +:+ e)]
        (Raise (SystemExit 1))) /\
  (exists e,
     audit_documentation fs_buttons "components.css" "missing.html" =
     IO [EvOpen "components.css"; EvOpen "missing.html";
         EvPrint ("❌ Error reading HTML file: " +:+ e)]
        (Raise (SystemExit 1))) /\
  audit_documentation fs_buttons "components.css" "index.html" =
  IO [EvOpen "components.css"; EvOpen "index.html"]
     (audit_contents css_buttons html_buttons).
Proof.
  split_and!.
  - apply (X11_audit_documentation_reads fs_buttons "missing.css" "index.html").
    intros [c H]. discriminate H.
  - apply (X11_audit_documentation_reads fs_buttons "components.css" "missing.html").
    + by exists css_buttons.
    + intros [c H]. discriminate H.
  - by apply (X11_audit_documentation_reads fs_buttons "components.css" "index.html").
Defined.

(** ** The driver *)

(** X12. Called with any number of arguments other than two, the script
    prints the usage line and leaves with status 1; it probes and opens no
    file. *)
Theorem X12_usage_error :
  forall (fs : string -> file) (argv : list string),
    length argv <> 3 ->
    main fs argv =
    IO [EvPrint "Usage: python audit-documentation.py <css-file-path> <html-file-path>"]
       (Raise (SystemExit 1)).
Proof.
  intros fs argv H. unfold main.
  destruct (length argv =? 3) eqn:E; [by apply Nat.eqb_eq in E|]. reflexivity.
Qed.

Lemma X12_usage_error_witness :
  main fs_buttons ["audit-documentation.py"; "components.css"] =
  IO [EvPrint "Usage: python audit-documentation.py <css-file-path> <html-file-path>"]
     (Raise (SystemExit 1)).
Proof. apply X12_usage_error. discriminate. Defined.

(** X13. When the style-sheet path exists and the document path does not,
    the run probes both paths, prints one line that names the document
    path, opens nothing and leaves with status 1. *)
Theorem X13_missing_html :
  forall (fs : string -> file) (prog css html : string),
    fs css <> Missing -> fs html = Missing ->
    main fs [prog; css; html] =
    IO [EvExists css; EvExists html;
        EvPrint ("❌ Error: HTML file '" +:+ html +:+ "' not found.")]
       (Raise (SystemExit 1)).
Proof.
  intros fs prog css html Hc Hh. unfold main, path_exists. cbn.
  destruct (fs css) eqn:E; [done| |]; cbn; rewrite Hh; reflexivity.
Qed.

Lemma X13_missing_html_witness :
  main fs_buttons ["audit-documentation.py"; "components.css"; "missing.html"] =
  IO [EvExists "components.css"; EvExists "missing.html";
      EvPrint ("❌ Error: HTML file '" +:+ "missing.html" +:+ "' not found.")]
     (Raise (SystemExit 1)).
Proof. apply X13_missing_html; [discriminate|reflexivity]. Defined.

(** X14. When both files are read, the run prints every finding: one
    bullet line for each undocumented component, one for each stale
    section, and the two count lines of the summary. *)
Theorem X14_findings_are_printed :
  forall (fs : string -> file) (prog css html c h : string) (r : audit_result),
    fs css = Readable c -> fs html = Readable h ->
    audit_contents c h = Ok r ->
    (forall name, name ∈ undocumented r ->
       ("   • ." +:+ name) ∈ printed (main fs [prog; css; html])) /\
    (forall section, section ∈ stale_sections r ->
       ("   • id=" +:+ dq +:+ section +:+ dq) ∈ printed (main fs [prog; css; html])) /\
    ("   • Found " +:+ pretty (component_count r) +:+ " semantic CSS components")
      ∈ printed (main fs [prog; css; html]) /\
    ("   • Found " +:+ pretty (section_count r) +:+ " documentation sections")
      ∈ printed (main fs [prog; css; html]).
Proof.
  intros fs prog css html c h r Hc Hh Ha.
  split_and!; [intros name Hin|intros name Hin| |]; apply printed_elem;
    [revert Hin..| |];
    unfold main, path_exists, audit_documentation, try_read;
    cbn; rewrite Hc; cbn; rewrite Hh; cbn; rewrite Ha; cbn;
    unfold report_undocumented, report_stale; rewrite !for_io_print;
    destruct (undocumented r) as [|u us], (stale_sections r) as [|t ts]; cbn;
    try (intros Hin; apply elem_of_cons in Hin as [->|Hin]);
    try (by intros ?%elem_of_nil); seek.
Qed.

Lemma X14_findings_are_printed_witness :
  ("   • ." +:+ "modal") ∈
    printed (main fs_findings ["audit-documentation.py"; "components.css"; "index.html"]) /\
  ("   • id=" +:+ dq +:+ "cards" +:+ dq) ∈
    printed (main fs_findings ["audit-documentation.py"; "components.css"; "index.html"]).
Proof.
  destruct (X14_findings_are_printed fs_findings "audit-documentation.py"
              "components.css" "index.html" ".modal {}" (open_tag "div" "id" "cards")
              (AuditResult ["modal"] ["cards"] 1 1) eq_refl eq_refl)
    as (Hu & Hs & _); [by vm_compute|].
  split; [apply Hu|apply Hs]; by_evaluation.
Defined.

(** ** The linter's helpers *)

(** X15. In [should_skip_value] the regular-expression test for a value
    used as a fall-back inside [var(...)] never decides: a line it matches
    contains both [var(] and the value, and such a line has been answered
    by the test before it. *)
Theorem X15_fallback_test_is_redundant :
  forall value line : string,
    search false (fallback_pattern value) line = true ->
    Py.contains "var(" line && Py.contains value line = true.
Proof.
  intros value line (a & t & m & -> & Hm)%search_sound.
  unfold match_at in Hm.
  apply rmatch_sound in Hm as (u & s' & g' & -> & Hrun & _).
  unfold fallback_pattern in Hrun.
  apply run_seq_inv in Hrun as (u1 & ? & ? & -> & H1 & Hrun).
  apply run_lit_exact in H1 as [-> _].
  apply run_seq_inv in Hrun as (u2 & ? & ? & -> & _ & Hrun).
  apply run_seq_inv in Hrun as (u3 & ? & ? & -> & _ & Hrun).
  apply run_seq_inv in Hrun as (u4 & ? & ? & -> & _ & Hrun).
  apply run_seq_inv in Hrun as (u5 & u6 & ? & -> & _ & H6).
  apply run_lit_exact in H6 as [-> _].
  apply andb_true_iff. split.
  - rewrite (str_app_assoc "var(" _ s'). apply contains_app.
  - replace (a +:+ ("var(" +:+ u2 +:+ u3 +:+ u4 +:+ u5 +:+ value) +:+ s')
      with ((a +:+ "var(" +:+ u2 +:+ u3 +:+ u4 +:+ u5) +:+ (value +:+ s'))
      by (by rewrite !str_app_assoc).
    apply contains_app.
Qed.

Lemma X15_fallback_test_is_redundant_witness :
  Py.contains "var(" "  padding: var(--x, 4px);"
  && Py.contains "4px" "  padding: var(--x, 4px);" = true.
Proof. apply X15_fallback_test_is_redundant. reflexivity. Defined.

(** X16. [get_css_rule_context] returns for every text and every line
    number, positive or not; what it returns never contains an opening
    brace; for a line number beyond the last line it is the empty string,
    and for a line number below one it is [Unknown selector]. *)
Theorem X16_rule_context_total :
  forall (content : string) (line_num : Z),
    exists selector,
      get_css_rule_context content line_num = Ok selector /\
      Py.contains "{" selector = false /\
      ((Z.of_nat (length (Py.split "010" content)) < line_num)%Z ->
       selector = "") /\
      ((line_num <= 0)%Z -> selector = "Unknown selector").
Proof.
  intros content line_num. unfold get_css_rule_context. cbv zeta.
  destruct (Z.ltb_spec (Z.of_nat (length (Py.split "010" content))) line_num)
    as [Hlt|Hge].
  - destruct (Z.leb_spec line_num (Z.of_nat (length (Py.split "010" content))));
      [lia|].
    exists "". split_and!; [done..|]. intros Hle.
    destruct (split_cons "010" content) as (w & ws & E). rewrite E in Hlt.
    cbn in Hlt. lia.
  - destruct (scan_up_total (Py.split "010" content) (Z.to_nat line_num))
      as (selector & Hs & Hfree); [lia|].
    exists selector. split_and!; [done..|lia|].
    intros Hle. replace (Z.to_nat line_num) with 0 in Hs by lia.
    cbn in Hs. by injection Hs as <-.
Qed.

Lemma X16_rule_context_total_witness :
  exists selector,
    get_css_rule_context sample_css 9 = Ok selector /\ selector = "".
Proof.
  destruct (X16_rule_context_total sample_css 9) as (selector & Hs & _ & Hbeyond & _).
  exists selector. split; [exact Hs|]. apply Hbeyond. reflexivity.
Defined.

(** X17. For a line number within the text, the answer is the selector of
    the nearest line, at or above the given one, that contains an opening
    brace once stripped: the stripped text before its first brace. *)
Theorem X17_rule_context_nearest :
  forall (content : string) (line_num : Z) (k : nat) (raw : string),
    (Z.of_nat k < line_num <= Z.of_nat (length (Py.split "010" content)))%Z ->
    Py.split "010" content !! k = Some raw ->
    Py.contains "{" (strip raw) = true ->
    (forall j raw', (Z.of_nat k < Z.of_nat j < line_num)%Z ->
                    Py.split "010" content !! j = Some raw' ->
                    Py.contains "{" (strip raw') = false) ->
    get_css_rule_context content line_num =
    Ok (strip (before_char "{" (strip raw))).
Proof.
  intros content line_num k raw Hrange Hraw Hbrace Hnone.
  unfold get_css_rule_context. cbv zeta.
  destruct (Z.ltb_spec (Z.of_nat (length (Py.split "010" content))) line_num);
    [lia|].
  apply (scan_up_nearest _ k raw); [lia|lia|done|done|].
  intros j raw' Hj. apply Hnone. lia.
Qed.

Lemma X17_rule_context_nearest_witness :
  get_css_rule_context sample_css 3 = Ok ".btn".
Proof.
  apply (X17_rule_context_nearest sample_css 3 0 ".btn {");
    [split; [reflexivity | by vm_compute] | reflexivity | reflexivity |].
  intros [|[|[|j]]] raw' Hj; [lia| | |lia]; by intros [= <-].
Defined.

(** ** The checker *)

(** X18. A line is never reported for double opening braces alone: the
    issues of one line are none, the warning about multiple opening braces,
    or that warning followed by the error about double opening braces. *)
Theorem X18_double_brace_follows_multiple :
  forall (i : nat) (line : string),
    line_issues i line = [] \/
    line_issues i line =
      ["⚠️  Line " +:+ pretty i +:+ ": Multiple opening braces on one line"] \/
    line_issues i line =
      ["⚠️  Line " +:+ pretty i +:+ ": Multiple opening braces on one line";
       "❌ Line " +:+ pretty i +:+ ": Double opening braces"].
Proof.
  intros i line. unfold line_issues.
  destruct (Py.contains "{" line && negb (Py.startswith (strip line) "/*"));
    [|by left].
  destruct (Py.contains "{{" line) eqn:E.
  - rewrite (double_brace_count _ E). by right; right.
  - destruct (1 <? count "{" line); [by right; left|by left].
Qed.


(** X20. The report of the checker ends with the separator line followed
    by the summary of the issues it collected: the success line when there
    is none, otherwise the header and one indented line for each issue, in
    the order of detection. *)
Theorem X20_report_ends_with_summary :
  forall css_content : string,
    exists earlier,
      printed (validate_content css_content) =
      earlier ++ (nl +:+ rule) :: summary (all_issues css_content).
Proof.
  intros css_content. destruct (validate_trace css_content) as [before H].
  by apply printed_lines in H.
Qed.
